(** * Taxonomy Navigator: the progressive-filtering classification pipeline

    A shallow embedding of [src/src/taxonomy_navigator_engine.py]
    (class [TaxonomyNavigator]) and the properties of its index builder,
    of its response validators and of [navigate_taxonomy].

    Conventions of the embedding.

    - A Python [str] is a Rocq [string].  The model covers ASCII text:
      characters above 127 are opaque (no case, not a space, not a digit).
    - Python integers are [Z]; list indices and lengths are [nat].
    - The completion service is an oracle.  Every call of
      [client.chat.completions.create] is answered by a [Gateway], a
      function of the number of calls made so far in the request and of
      the request's payload; quantifying over all gateways covers every
      behaviour of the service, deterministic or not.
    - Logging has no effect on results and is left out. *)

From Stdlib Require Import ZArith Ascii String.
From stdpp Require Import base option list strings gmap.

Local Open Scope Z_scope.

(** ** Python string primitives *)

Module Py.

Definition code (c : ascii) : N := N_of_ascii c.

(** [str.isspace] on one ASCII character: TAB..CR, FS..US and SPACE. *)
Definition is_space (c : ascii) : bool :=
  let n := code c in
  ((9 <=? n) && (n <=? 13) || (28 <=? n) && (n <=? 32))%N.

(** [\d] of [re] and the digits of [int], ASCII range. *)
Definition is_digit (c : ascii) : bool :=
  let n := code c in ((48 <=? n) && (n <=? 57))%N.

Definition digit_value (c : ascii) : Z := Z.of_N (code c) - 48.

Definition lower_char (c : ascii) : ascii :=
  let n := code c in
  if ((65 <=? n) && (n <=? 90))%N then ascii_of_N (n + 32) else c.

Definition upper_char (c : ascii) : ascii :=
  let n := code c in
  if ((97 <=? n) && (n <=? 122))%N then ascii_of_N (n - 32) else c.

Fixpoint map_chars (f : ascii → ascii) (s : string) : string :=
  match s with
  | EmptyString => EmptyString
  | String c s' => String (f c) (map_chars f s')
  end.

(** [s.lower()] and [s.upper()]. *)
Definition lower : string → string := map_chars lower_char.
Definition upper : string → string := map_chars upper_char.

(** Truth value of a string: [if s] / [if not s]. *)
Definition truthy (s : string) : bool :=
  match s with EmptyString => false | String _ _ => true end.

Fixpoint lstrip (s : string) : string :=
  match s with
  | EmptyString => EmptyString
  | String c s' => if is_space c then lstrip s' else s
  end.

Fixpoint rstrip (s : string) : string :=
  match s with
  | EmptyString => EmptyString
  | String c s' =>
      let r := rstrip s' in
      if negb (truthy r) && is_space c then EmptyString else String c r
  end.

(** [s.strip()] *)
Definition strip (s : string) : string := rstrip (lstrip s).

(** [s.startswith(p)] *)
Fixpoint startswith (p s : string) : bool :=
  match p, s with
  | EmptyString, _ => true
  | String a p', String b s' => bool_decide (a = b) && startswith p' s'
  | String _ _, EmptyString => false
  end.

(** [s.endswith(p)] *)
Definition endswith (p s : string) : bool :=
  startswith (String.rev p) (String.rev s).

(** [p in s] for strings. *)
Fixpoint contains (p s : string) : bool :=
  startswith p s ||
  match s with
  | EmptyString => false
  | String _ s' => contains p s'
  end.

(** [s.split(sep)] for a non-empty separator.  [skip] counts the
    characters of a separator just matched that remain to be passed
    over; [cur] is the piece being collected. *)
Fixpoint split_go (sep : string) (skip : nat) (cur : string) (s : string)
  : list string :=
  match s with
  | EmptyString => [cur]
  | String c s' =>
      match skip with
      | S k => split_go sep k cur s'
      | O =>
          if startswith sep s
          then cur :: split_go sep (String.length sep - 1) EmptyString s'
          else split_go sep 0 (cur +:+ String c EmptyString) s'
      end
  end.

Definition split (sep s : string) : list string := split_go sep 0 EmptyString s.

(** [parts[0]] and [parts[-1]] of the result of a [split], which is
    never empty (lemma [split_nonempty]). *)
Definition first_part (parts : list string) : string := hd EmptyString parts.
Definition last_part (parts : list string) : string := List.last parts EmptyString.

(** [re.findall(r'\d+', s)]: the maximal runs of digits, left to right. *)
Definition flush (cur : string) : list string :=
  if truthy cur then [cur] else [].

Fixpoint findall_digits_go (cur : string) (s : string) : list string :=
  match s with
  | EmptyString => flush cur
  | String c s' =>
      if is_digit c
      then findall_digits_go (cur +:+ String c EmptyString) s'
      else flush cur ++ findall_digits_go EmptyString s'
  end.

Definition findall_digits (s : string) : list string :=
  findall_digits_go EmptyString s.

(** Value of a run of decimal digits. *)
Fixpoint digits_value_go (acc : Z) (s : string) : Z :=
  match s with
  | EmptyString => acc
  | String c s' => digits_value_go (10 * acc + digit_value c) s'
  end.

Definition digits_value (s : string) : Z := digits_value_go 0 s.

(** [int(s)] for a stripped string, base 10: an optional sign, then
    digits in which single underscores may separate digits.  [None]
    is [ValueError].  The limit on the number of digits that recent
    interpreters impose is not modelled. *)
Inductive int_state := IntStart | IntDigit | IntUnderscore.

Fixpoint int_body (st : int_state) (acc : Z) (s : string) : option Z :=
  match s with
  | EmptyString => match st with IntDigit => Some acc | _ => None end
  | String c s' =>
      if is_digit c then int_body IntDigit (10 * acc + digit_value c) s'
      else if bool_decide (c = "_"%char)
           then match st with
                | IntDigit => int_body IntUnderscore acc s'
                | _ => None
                end
           else None
  end.

Definition int (s : string) : option Z :=
  match s with
  | String c s' =>
      if bool_decide (c = "+"%char) then int_body IntStart 0 s'
      else if bool_decide (c = "-"%char) then Z.opp <$> int_body IntStart 0 s'
      else int_body IntStart 0 s
  | EmptyString => None
  end.

(** Every character of [s] is a digit. *)
Fixpoint all_digits (s : string) : bool :=
  match s with
  | EmptyString => true
  | String c s' => is_digit c && all_digits s'
  end.

(** [s[:n]] *)
Fixpoint take (n : nat) (s : string) : string :=
  match n, s with
  | S k, String c s' => String c (take k s')
  | _, _ => EmptyString
  end.

End Py.

(** Membership test [x in xs] on a Python list of strings. *)
Definition inb (x : string) (xs : list string) : bool := bool_decide (x ∈ xs).

(** The hierarchy separator of the taxonomy file. *)
Definition SEP : string := " > ".

(** ** The taxonomy index

    [_build_taxonomy_tree] reads the file, fills [self.all_paths] and
    [self.leaf_markers] and returns the nested dictionary of categories.
    The dictionary is written by [_add_to_tree], which cannot raise, and
    is read by no stage of the pipeline; the embedding keeps the two
    lists, which is all the pipeline consults. *)

Record TaxonomyNavigator : Type := {
  all_paths : list string;
  leaf_markers : list bool
}.

(** What [open(self.taxonomy_file)] followed by [f.readlines()] yields. *)
Inductive FileRead : Type :=
  | Missing                          (* the file does not exist *)
  | Unreadable                       (* any other failure of open/read *)
  | Lines (lines : list string).

Inductive PyError : Type :=
  | FileNotFoundError
  | OtherException.

Inductive Built : Type :=
  | Raised (e : PyError)
  | Constructed (nav : TaxonomyNavigator).

(** The test of the inner loop, lines 343-344: is [raw], once stripped,
    a child of [line]? *)
Definition is_child_line (line raw : string) : bool :=
  let subsequent_line := Py.strip raw in
  Py.truthy subsequent_line && Py.startswith (line +:+ SEP) subsequent_line.

(** The outer loop, lines 330-349, over [lines[1:]].  At the line of
    index [i] the inner loop ranges over the lines of index [i+1]
    onwards, which is the tail [later] here; its [break] makes it an
    [existsb].  Appending to [paths] and [is_leaf] in loop order is
    consing in recursion order. *)
Fixpoint scan_lines (rest : list string) : list string * list bool :=
  match rest with
  | [] => ([], [])
  | raw :: later =>
      let line := Py.strip raw in
      if negb (Py.truthy line) then scan_lines later
      else
        let is_leaf_node := negb (existsb (is_child_line line) later) in
        let '(paths, is_leaf) := scan_lines later in
        (line :: paths, is_leaf_node :: is_leaf)
  end.

Definition index_of_lines (lines : list string) : TaxonomyNavigator :=
  let '(paths, is_leaf) := scan_lines (drop 1 lines) in
  {| all_paths := paths; leaf_markers := is_leaf |}.

Definition _build_taxonomy_tree (file : FileRead) : Built :=
  match file with
  | Missing => Raised FileNotFoundError
  | Unreadable => Raised OtherException
  | Lines lines => Constructed (index_of_lines lines)
  end.

(** The idiom [for i, path in enumerate(self.all_paths): if
    self.leaf_markers[i]: ...] visits the paths flagged as leaves, in file
    order.  The two lists have the same length on every index the
    builder makes (lemma [scan_lines_length]). *)
Definition leaf_paths (nav : TaxonomyNavigator) : list string :=
  omap (λ pm : string * bool, if pm.2 then Some pm.1 else None)
       (zip (all_paths nav) (leaf_markers nav)).

(** ** The completion gateway

    [response.choices[0].message.content] either is a text or cannot be
    used as one (no choice, no content): the access, or the method called
    on its value, raises. *)

Inductive Response : Type :=
  | NoContent
  | Content (text : string).

(** A call of [client.chat.completions.create] raises or returns. *)
Inductive Reply : Type :=
  | ApiError
  | Returned (response : Response).

(** What a call sends: the data its prompt is formatted from. *)
Inductive Request : Type :=
  | SummaryRequest (product_info : string)
  | Stage1Request (product_info : string) (l1_categories : list string)
  | Stage2Request (product_info : string) (batch_no batch_count : nat)
                  (numbered_options : list (Z * string * string))
  | Stage3Request (product_info : string) (numbered_options : list (Z * string)).

(** The reply to the [n]-th call of a request, given what it sends. *)
Definition Gateway : Type := nat → Request → Reply.

(** Computations that call the gateway: a reader of the gateway and a
    state of the number of calls made. *)
Definition M (A : Type) : Type := Gateway → nat → A * nat.

Definition ret {A} (a : A) : M A := λ _ n, (a, n).

Definition bind {A B} (m : M A) (k : A → M B) : M B :=
  λ gw n, let '(a, n') := m gw n in k a gw n'.

Definition call (req : Request) : M Reply := λ gw n, (gw n req, S n).

Notation "'do' x <- m ; k" := (bind m (λ x, k))
  (at level 10, x name, m at level 100, k at level 200).

(** ** Summary *)

Definition generate_product_summary (product_info : string) : M string :=
  do r <- call (SummaryRequest product_info);
  ret match r with
      | Returned (Content text) => Py.strip text
      | _ =>
          if (400 <? String.length product_info)%nat
          then Py.take 400 product_info +:+ "..."
          else product_info
      end.

(** ** Stage 1: selection of top-level categories *)

Definition NL : string := String "010" EmptyString.

(** Lines 446-452: the first segments of the leaf paths, without
    repetition, in file order. *)
Definition l1_categories (nav : TaxonomyNavigator) : list string :=
  foldl (λ acc full_path,
           let l1_category := Py.first_part (Py.split SEP full_path) in
           if inb l1_category acc then acc else acc ++ [l1_category])
        [] (leaf_paths nav).

(** Line 487: the stripped, non-empty lines of the response. *)
Definition response_lines (content : string) : list string :=
  List.filter Py.truthy (Py.strip <$> Py.split NL content).

(** Lines 507-513: duplicates removed, compared in lower case. *)
Definition unique_step_lower (st : gset string * list string) (category : string)
  : gset string * list string :=
  let category_lower := Py.lower category in
  if bool_decide (category_lower ∈ st.1) then st
  else ({[category_lower]} ∪ st.1, st.2 ++ [category]).

Definition unique_categories (validated_categories : list string) : list string :=
  (foldl unique_step_lower (∅, []) validated_categories).2.

(** [_validate_categories], lines 1039-1070. *)
Definition partial_match (selected c : string) : bool :=
  Py.contains (Py.lower c) (Py.lower selected)
  || Py.contains (Py.lower selected) (Py.lower c).

Definition add_valid (st : gset string * list string) (c : string)
  : gset string * list string :=
  if bool_decide (Py.lower c ∈ st.1) then st
  else ({[Py.lower c]} ∪ st.1, st.2 ++ [c]).

Definition validate_step (available_categories : list string)
    (st : gset string * list string) (selected : string)
  : gset string * list string :=
  let matching_categories :=
    List.filter (λ c, bool_decide (Py.lower c = Py.lower selected))
                available_categories in
  match matching_categories with
  | matched_category :: _ => add_valid st matched_category
  | [] =>
      match List.find (partial_match selected) available_categories with
      | Some c => add_valid st c
      | None => add_valid st selected
      end
  end.

Definition _validate_categories (selected_categories available_categories : list string)
  : list string :=
  (foldl (validate_step available_categories) (∅, []) selected_categories).2.

Definition stage1_l1_selection (nav : TaxonomyNavigator) (product_info : string)
  : M (list string) :=
  let l1s := l1_categories nav in
  match l1s with
  | [] => ret []
  | _ :: _ =>
      do r <- call (Stage1Request product_info l1s);
      match r with
      | Returned (Content text) =>
          let content := Py.strip text in
          let selected_categories := response_lines content in
          let validated_categories :=
            List.filter (λ category, inb category l1s) selected_categories in
          let unique := take 2 (unique_categories validated_categories) in
          ret (_validate_categories unique l1s)
      | _ => ret (take (min 2 (length l1s)) l1s)
      end
  end.

(** ** Stage 2: selection of leaves, in batches *)

(** [_create_leaf_to_l1_mapping]; a later leaf of the same name
    overwrites an earlier one. *)
Definition _create_leaf_to_l1_mapping (nav : TaxonomyNavigator) : gmap string string :=
  foldl (λ leaf_to_l1 path,
           let leaf_name := Py.last_part (Py.split SEP path) in
           let l1_category := Py.first_part (Py.split SEP path) in
           <[leaf_name := l1_category]> leaf_to_l1)
        ∅ (leaf_paths nav).

(** Lines 612-622. *)
Definition filtered_leaves (nav : TaxonomyNavigator)
    (selected_l1s excluded_leaves : list string) : list string :=
  omap (λ full_path,
          let leaf := Py.last_part (Py.split SEP full_path) in
          let l1_category := Py.first_part (Py.split SEP full_path) in
          if inb l1_category selected_l1s && negb (inb leaf excluded_leaves)
          then Some leaf else None)
       (leaf_paths nav).

Definition batch_size : nat := 100.

(** [range(0, n, batch_size)] *)
Definition batch_starts (n : nat) : list nat :=
  (λ k, k * batch_size)%nat <$> seq 0 ((n + batch_size - 1) / batch_size)%nat.

(** [enumerate(xs, 1)] *)
Definition enumerate1 {A} (xs : list A) : list (Z * A) :=
  zip (Z.of_nat <$> seq 1 (length xs)) xs.

(** Lines 644-649: [leaf_mapping], from the numbers of the batch to its
    leaves. *)
Definition leaf_mapping_of (batch_leaves : list string) : gmap Z string :=
  list_to_map (enumerate1 batch_leaves).

Definition numbered_options_of (leaf_to_l1 : gmap string string)
    (batch_leaves : list string) : list (Z * string * string) :=
  (λ il : Z * string, (il.1, il.2, default "Unknown" (leaf_to_l1 !! il.2)))
    <$> enumerate1 batch_leaves.

(** Lines 698-707, for one number of one line.  A number in range is a
    key of [leaf_mapping] (lemma [leaf_mapping_lookup]), so the lookup
    raises no [KeyError]. *)
Definition select_number (leaf_mapping : gmap Z string) (num_str : string)
  : list string :=
  let num := Py.digits_value num_str in
  if (1 <=? num) && (num <=? Z.of_nat (size leaf_mapping))
  then match leaf_mapping !! num with
       | Some leaf_name => [leaf_name]
       | None => []
       end
  else [].

(** Lines 689-707: what one batch response appends to
    [all_selected_numbers]. *)
Definition batch_selection (leaf_mapping : gmap Z string) (text : string)
  : list string :=
  let content := Py.strip text in
  if bool_decide (Py.upper content = "NONE") then []
  else
    mjoin ((λ line,
              let line := Py.strip line in
              if Py.truthy line
              then mjoin (select_number leaf_mapping <$> Py.findall_digits line)
              else [])
           <$> Py.split NL content).

(** One turn of the loop of line 634. *)
Definition process_batch (product_info : string) (leaf_to_l1 : gmap string string)
    (filtered : list string) (batch_start : nat) : M (list string) :=
  let batch_end := ((batch_start + batch_size) `min` length filtered)%nat in
  let batch_leaves := take (batch_end - batch_start)%nat (drop batch_start filtered) in
  match batch_leaves with
  | [] => ret []
  | _ :: _ =>
      let leaf_mapping := leaf_mapping_of batch_leaves in
      do r <- call (Stage2Request product_info
                      (batch_start / batch_size + 1)%nat
                      ((length filtered + batch_size - 1) / batch_size)%nat
                      (numbered_options_of leaf_to_l1 batch_leaves));
      match r with
      | Returned (Content text) => ret (batch_selection leaf_mapping text)
      | _ => ret []
      end
  end.

Fixpoint for_each_batch (body : nat → M (list string)) (starts : list nat)
  : M (list string) :=
  match starts with
  | [] => ret []
  | batch_start :: rest =>
      do selected <- body batch_start;
      do more <- for_each_batch body rest;
      ret (selected ++ more)
  end.

(** Lines 630-711: the value of [all_selected_numbers] after the loop. *)
Definition all_selected_numbers (nav : TaxonomyNavigator) (product_info : string)
    (selected_l1s excluded_leaves : list string) : M (list string) :=
  let filtered := filtered_leaves nav selected_l1s excluded_leaves in
  for_each_batch
    (process_batch product_info (_create_leaf_to_l1_mapping nav) filtered)
    (batch_starts (length filtered)).

(** Lines 714-719: duplicates removed, order kept. *)
Definition unique_step (st : gset string * list string) (leaf : string)
  : gset string * list string :=
  if bool_decide (leaf ∈ st.1) then st else ({[leaf]} ∪ st.1, st.2 ++ [leaf]).

Definition unique_leaves (selected : list string) : list string :=
  (foldl unique_step (∅, []) selected).2.

(** [_leaf_selection_helper].  Nothing in its body raises outside the
    per-batch handler, so the outer handler of line 726 is not taken. *)
Definition _leaf_selection_helper (nav : TaxonomyNavigator) (product_info : string)
    (selected_l1s excluded_leaves : list string) : M (list string) :=
  match filtered_leaves nav selected_l1s excluded_leaves with
  | [] => ret []
  | _ :: _ =>
      do selected <- all_selected_numbers nav product_info selected_l1s excluded_leaves;
      ret (unique_leaves selected)
  end.

Definition stage2a_first_leaf_selection (nav : TaxonomyNavigator)
    (product_info : string) (selected_l1s : list string) : M (list string) :=
  match selected_l1s with
  | [] => ret []
  | first :: _ => _leaf_selection_helper nav product_info [first] []
  end.

Definition stage2b_second_leaf_selection (nav : TaxonomyNavigator)
    (product_info : string) (selected_l1s excluded_leaves : list string)
  : M (list string) :=
  match selected_l1s with
  | _ :: second :: _ => _leaf_selection_helper nav product_info [second] excluded_leaves
  | _ => ret []
  end.

(** ** Stage 3: final selection *)

(** Line 1133. *)
Definition meaningless_responses : list string :=
  ["none"; "null"; "error"; "fail"; "false"; "n/a"; "na"; "unknown"].

Definition in_range (number max_options : Z) : bool :=
  (1 <=? number) && (number <=? max_options).

(** Lines 1107-1118: the first number found, when it is in range. *)
Definition first_number_index (cleaned_result : string) (max_options : Z) : option Z :=
  match Py.findall_digits cleaned_result with
  | first :: _ =>
      let selected_number := Py.digits_value first in
      if in_range selected_number max_options then Some (selected_number - 1) else None
  | [] => None
  end.

(** Lines 1121-1129: the whole response read as a number, when it is
    one and is in range. *)
Definition direct_number_index (cleaned_result : string) (max_options : Z) : option Z :=
  match Py.int cleaned_result with
  | Some direct_number =>
      if in_range direct_number max_options then Some (direct_number - 1) else None
  | None => None
  end.

(** [_parse_and_validate_number].  When the content of the response
    cannot be read, the handler of line 1142 returns 0. *)
Definition _parse_and_validate_number (response : Response) (max_options : Z) : Z :=
  match response with
  | NoContent => 0
  | Content text =>
      let result := Py.strip text in
      let cleaned_result := Py.lower (Py.strip result) in
      if negb (Py.truthy cleaned_result) then -1
      else
        match first_number_index cleaned_result max_options with
        | Some best_index => best_index
        | None =>
            match direct_number_index cleaned_result max_options with
            | Some best_index => best_index
            | None =>
                if inb cleaned_result meaningless_responses then -1 else 0
            end
        end
  end.

Definition stage3_final_selection (product_info : string) (selected_leaves : list string)
  : M Z :=
  match selected_leaves with
  | [] => ret (-1)
  | [_] => ret 0
  | _ =>
      do r <- call (Stage3Request product_info (enumerate1 selected_leaves));
      match r with
      | ApiError => ret (-1)
      | Returned response =>
          let selected_index :=
            _parse_and_validate_number response (Z.of_nat (length selected_leaves)) in
          ret (if 0 <=? selected_index then selected_index else -1)
      end
  end.

(** ** The pipeline *)

(** [xs[i]] for an integer index; [None] is [IndexError]. *)
Definition py_index {A} (xs : list A) (i : Z) : option A :=
  if 0 <=? i then xs !! Z.to_nat i
  else if 0 <=? Z.of_nat (length xs) + i then xs !! Z.to_nat (Z.of_nat (length xs) + i)
  else None.

(** Lines 908-914: the full paths whose last segment is the chosen leaf. *)
Definition full_paths_of (nav : TaxonomyNavigator) (selected_leaf : string)
  : list (list string) :=
  omap (λ path,
          if Py.endswith selected_leaf path
          then let path_parts := Py.split SEP path in
               if bool_decide (Py.last_part path_parts = selected_leaf)
               then Some path_parts else None
          else None)
       (leaf_paths nav).

(** The [return] statement by which [navigate_taxonomy] ends. *)
Inductive Outcome : Type :=
  | Stage1Failed                              (* line 847 *)
  | Stage2Failed                              (* line 879 *)
  | Stage3Failed                              (* line 899 *)
  | PathNotFound                              (* line 918 *)
  | CriticalError                             (* line 929, the handler *)
  | Resolved (full_paths : list (list string)). (* line 925 *)

(** The failure sentinel. *)
Definition FAILURE : list (list string) * Z := ([["False"]], 0).

Definition returned (o : Outcome) : list (list string) * Z :=
  match o with
  | Resolved full_paths => (take 1 full_paths, 0)
  | _ => FAILURE
  end.

(** Lines 905-925: from the chosen index to the full path. *)
Definition resolve (nav : TaxonomyNavigator) (all_selected_leaves : list string)
    (best_match_idx : Z) : Outcome :=
  match py_index all_selected_leaves best_match_idx with
  | None => CriticalError
  | Some selected_leaf =>
      match full_paths_of nav selected_leaf with
      | [] => PathNotFound
      | full_paths => Resolved full_paths
      end
  end.

(** Lines 886-925: stage 3, skipped for a single candidate, then the
    resolution. *)
Definition final_selection (nav : TaxonomyNavigator) (product_summary : string)
    (all_selected_leaves : list string) : M Outcome :=
  if (length all_selected_leaves =? 1)%nat
  then ret (resolve nav all_selected_leaves 0)
  else
    do best_match_idx <- stage3_final_selection product_summary all_selected_leaves;
    if best_match_idx <? 0 then ret Stage3Failed
    else ret (resolve nav all_selected_leaves best_match_idx).

(** Lines 856-875: both branches of stage 2, merged. *)
Definition leaf_selection (nav : TaxonomyNavigator) (product_summary : string)
    (selected_l1s : list string) : M (list string) :=
  do selected_leaves_2a <-
    stage2a_first_leaf_selection nav product_summary selected_l1s;
  do selected_leaves_2b <-
    (if (2 <=? length selected_l1s)%nat
     then stage2b_second_leaf_selection nav product_summary selected_l1s
            selected_leaves_2a
     else ret []);
  ret (selected_leaves_2a ++ selected_leaves_2b).

(** The body of [navigate_taxonomy], lines 827-929. *)
Definition navigate_outcome (nav : TaxonomyNavigator) (product_info : string)
  : M Outcome :=
  do product_summary <- generate_product_summary product_info;
  do selected_l1s <- stage1_l1_selection nav product_summary;
  match selected_l1s with
  | [] => ret Stage1Failed
  | _ :: _ =>
      do all_selected_leaves <- leaf_selection nav product_summary selected_l1s;
      match all_selected_leaves with
      | [] => ret Stage2Failed
      | _ :: _ => final_selection nav product_summary all_selected_leaves
      end
  end.

Definition navigate_taxonomy (nav : TaxonomyNavigator) (product_info : string)
  : M (list (list string) * Z) :=
  do o <- navigate_outcome nav product_info;
  ret (returned o).

(** The state in which [navigate_taxonomy] reaches stage 3: the summary
    and the merged candidates of stage 2, after the calls made so far. *)
Definition candidates (nav : TaxonomyNavigator) (product_info : string)
  : M (string * list string) :=
  do product_summary <- generate_product_summary product_info;
  do selected_l1s <- stage1_l1_selection nav product_summary;
  do all_selected_leaves <- leaf_selection nav product_summary selected_l1s;
  ret (product_summary, all_selected_leaves).

(** Deduplication as the specification words it: every name is kept
    at the place where it is first seen. *)
Fixpoint first_seen (xs : list string) : list string :=
  match xs with
  | [] => []
  | x :: rest => x :: filter (λ y, y ≠ x) (first_seen rest)
  end.

(** The leaf names in the order in which the responses of a branch of
    stage 2 select them, before duplicates are removed. *)
Definition stage2a_encountered (nav : TaxonomyNavigator) (product_info : string)
    (selected_l1s : list string) : M (list string) :=
  match selected_l1s with
  | [] => ret []
  | first :: _ => all_selected_numbers nav product_info [first] []
  end.

Definition stage2b_encountered (nav : TaxonomyNavigator) (product_info : string)
    (selected_l1s excluded_leaves : list string) : M (list string) :=
  match selected_l1s with
  | _ :: second :: _ => all_selected_numbers nav product_info [second] excluded_leaves
  | _ => ret []
  end.

(** The responses on which stage 3 gives up: the empty one and the
    words of [meaningless_responses]. *)
Definition non_answers : list string := EmptyString :: meaningless_responses.

(** A sample taxonomy and a sample gateway: the summary call fails,
    stage 1 names both top-level categories, the first batch of stage 2
    picks two leaves and stage 3 answers with [stage3_text]. *)
Definition sample_lines : list string :=
  ["# Test Taxonomy"; "Electronics"; "Electronics > Cell Phones";
   "Electronics > Cell Phones > Smartphones"; "Electronics > Computers";
   "Electronics > Computers > Laptops"; "Apparel"; "Apparel > Shoes";
   "Apparel > Shoes > Athletic Shoes"].

Definition sample_gateway (stage1_text stage3_text : string) : Gateway :=
  λ n req,
    match req with
    | SummaryRequest _ => ApiError
    | Stage1Request _ _ => Returned (Content stage1_text)
    | Stage2Request _ _ _ _ =>
        if bool_decide (n = 2%nat) then Returned (Content "1, 2")
        else Returned (Content "NONE")
    | Stage3Request _ _ => Returned (Content stage3_text)
    end.

(** ** The claims of the specification that the code does not meet,
    stated as the specification words them *)

(** Leaf detection as the specification words it: the flag of a path is
    true exactly when no other path of the file, before or after it,
    starts with its text followed by the separator. *)
Definition leaf_iff_no_descendant_anywhere (nav : TaxonomyNavigator) : Prop :=
  ∀ (i : nat) (p : string),
    all_paths nav !! i = Some p →
    (leaf_markers nav !! i = Some true ↔
     ∀ (j : nat) (q : string),
       j ≠ i → all_paths nav !! j = Some q → Py.startswith (p +:+ SEP) q = false).

(** Construction as the specification words it: a file that is missing,
    or empty after its header line, makes the builder fail. *)
Definition empty_after_header (lines : list string) : Prop := drop 1 lines = [].

Definition build_rejects_empty : Prop :=
  ∀ lines, empty_after_header lines → ∃ e, _build_taxonomy_tree (Lines lines) = Raised e.

(** The response as stage 3 compares it: stripped, in lower case. *)
Definition cleaned (text : string) : string := Py.lower (Py.strip (Py.strip text)).

(** Numeric parsing as the specification words it: a number that is 0
    or above the count of candidates selects nothing. *)
Definition out_of_range_selects_nothing : Prop :=
  ∀ (digits : string) (max_options : Z),
    Py.truthy digits = true → Py.all_digits digits = true →
    in_range (Py.digits_value digits) max_options = false →
    _parse_and_validate_number (Content digits) max_options = -1.

(** The non-answers that the specification lists. *)
Definition listed_non_answers : list string :=
  [EmptyString; "none"; "error"; "false"; "n/a"; "unknown"].

(** Stage 3 as the specification words it: outside the listed
    non-answers, a response from which no selection is parsed selects
    the first candidate. *)
Definition other_unparseable_selects_first : Prop :=
  ∀ (text : string) (max_options : Z),
    inb (cleaned text) listed_non_answers = false →
    first_number_index (cleaned text) max_options = None →
    direct_number_index (cleaned text) max_options = None →
    _parse_and_validate_number (Content text) max_options = 0.

(** Stage 1 as the specification words it: with at least one top-level
    category in the taxonomy, the stage returns a category whatever the
    gateway answers. *)
Definition stage1_never_empty : Prop :=
  ∀ (lines : list string) (summary : string) (gw : Gateway) (n : nat),
    l1_categories (index_of_lines lines) ≠ [] →
    (stage1_l1_selection (index_of_lines lines) summary gw n).1 ≠ [].

(** Validation in stage 1 as the specification words it: a line that
    equals a top-level category up to case is matched to it. *)
Definition stage1_matches_up_to_case : Prop :=
  ∀ (lines : list string) (summary : string) (gw : Gateway) (n : nat)
    (text line c : string),
    gw n (Stage1Request summary (l1_categories (index_of_lines lines)))
    = Returned (Content text) →
    response_lines (Py.strip text) = [line] →
    c ∈ l1_categories (index_of_lines lines) →
    Py.lower c = Py.lower line →
    c ∈ (stage1_l1_selection (index_of_lines lines) summary gw n).1.

(** The sentinel as the specification words it: a request that ends at
    the successful [return] never yields the value of the sentinel. *)
Definition sentinel_never_a_result : Prop :=
  ∀ (lines : list string) (product_info : string) (gw : Gateway)
    (full_paths : list (list string)),
    (navigate_outcome (index_of_lines lines) product_info gw 0%nat).1
    = Resolved full_paths →
    returned (Resolved full_paths) ≠ FAILURE.

(** * The functions that the claims leave out *)

(** [sep.join(parts)] *)
Fixpoint py_join (sep : string) (parts : list string) : string :=
  match parts with
  | [] => EmptyString
  | [p] => p
  | p :: rest => p +:+ sep +:+ py_join sep rest
  end.

(** [_extract_leaf_nodes]: the leaf paths and their leaf names. *)
Definition _extract_leaf_nodes (nav : TaxonomyNavigator) : list string * list string :=
  foldl (λ (acc : list string * list string) full_path,
           (acc.1 ++ [full_path], acc.2 ++ [Py.last_part (Py.split SEP full_path)]))
        ([], []) (leaf_paths nav).

(** [_create_leaf_to_path_mapping] *)
Definition _create_leaf_to_path_mapping (nav : TaxonomyNavigator) : gmap string string :=
  foldl (λ leaf_to_path path,
           let leaf_name := Py.last_part (Py.split SEP path) in
           <[leaf_name := path]> leaf_to_path)
        ∅ (leaf_paths nav).

(** [_create_leaf_to_l2_mapping]; [path_parts[1]] is read only when
    there are at least two parts. *)
Definition _create_leaf_to_l2_mapping (nav : TaxonomyNavigator) : gmap string string :=
  foldl (λ leaf_to_l2 path,
           let leaf_name := Py.last_part (Py.split SEP path) in
           let path_parts := Py.split SEP path in
           let l2_category :=
             if (1 <? length path_parts)%nat
             then default EmptyString (path_parts !! 1%nat)
             else Py.first_part path_parts in
           <[leaf_name := l2_category]> leaf_to_l2)
        ∅ (leaf_paths nav).

(** [_convert_leaves_to_paths]: a name that is no key of the mapping
    is logged and left out. *)
Definition _convert_leaves_to_paths (nav : TaxonomyNavigator)
    (selected_leaves : list string) : list (list string) :=
  let leaf_to_path := _create_leaf_to_path_mapping nav in
  omap (λ leaf, Py.split SEP <$> leaf_to_path !! leaf) selected_leaves.

(** [_validate_category]: the index of the first name equal up to
    case, else of the first name that contains the selection or is
    contained in it, else -1. *)
Definition _validate_category (selected_category : string)
    (available_categories : list string) : Z :=
  match list_find (λ category, Py.lower category = Py.lower selected_category)
                  available_categories with
  | Some (i, _) => Z.of_nat i
  | None =>
      match list_find (λ category, partial_match selected_category category = true)
                      available_categories with
      | Some (i, _) => Z.of_nat i
      | None => -1
      end
  end.

(** [stage2c_third_leaf_selection], kept for compatibility: no call,
    no leaf. *)
Definition stage2c_third_leaf_selection (nav : TaxonomyNavigator)
    (product_info : string) (selected_l1s excluded_leaves : list string)
  : M (list string) := ret [].

(** The leaves of one turn of the batch loop, [filtered_leaves[batch_start:batch_end]]
    of line 636, as [process_batch] computes them. *)
Definition batch_leaves_at (filtered : list string) (batch_start : nat) : list string :=
  let batch_end := ((batch_start + batch_size) `min` length filtered)%nat in
  take (batch_end - batch_start)%nat (drop batch_start filtered).

(** The name that one turn of the loop of [_validate_categories]
    records for a selection: the first available name equal to it up to
    case, else the first that contains it or is contained in it, else the
    selection itself. *)
Definition validated_name (available_categories : list string) (selected : string)
  : string :=
  match List.filter (λ c, bool_decide (Py.lower c = Py.lower selected))
                    available_categories with
  | matched_category :: _ => matched_category
  | [] =>
      match List.find (partial_match selected) available_categories with
      | Some c => c
      | None => selected
      end
  end.

(** The leaf name of a path, [path.split(" > ")[-1]], and the second
    level that [_create_leaf_to_l2_mapping] records for it. *)
Definition leaf_name_of (path : string) : string := Py.last_part (Py.split SEP path).

Definition l2_of (path : string) : string :=
  let path_parts := Py.split SEP path in
  if (1 <? length path_parts)%nat
  then default EmptyString (path_parts !! 1%nat)
  else Py.first_part path_parts.

(** The shape of the three loops that build a dictionary from the leaf
    paths: [m[k(path)] = v(path)] for each path in turn. *)
Definition build_map {V} (k : string → string) (v : string → V)
    (m0 : gmap string V) (l : list string) : gmap string V :=
  foldl (λ m p, <[k p := v p]> m) m0 l.

(** ** The category tree

    A node of the nested dictionary that [_add_to_tree] fills:
    [{"name": ..., "children": {...}, "is_leaf": ...}].  The tree is the
    dictionary of the children of the root. *)

#[local] Set Warnings "-register-all".

Inductive Node : Type :=
  MkNode (name : string) (children : gmap string Node) (is_leaf : bool).

Definition node_name (n : Node) : string := match n with MkNode nm _ _ => nm end.
Definition node_children (n : Node) : gmap string Node :=
  match n with MkNode _ ch _ => ch end.
Definition node_is_leaf (n : Node) : bool := match n with MkNode _ _ lf => lf end.

Definition GT : string := ">".

(** The loop of lines 395-417 from the part of index [i]; [rest = []]
    is the test [i == len(parts) - 1].  The node under [part] is created
    when it is missing, has its flag set when the part is the last one
    and not the first, and is then descended into. *)
Fixpoint add_parts (is_leaf : bool) (i : nat) (parts : list string)
    (children : gmap string Node) : gmap string Node :=
  match parts with
  | [] => children
  | part :: rest =>
      let is_last := bool_decide (rest = []) in
      let node :=
        match children !! part with
        | None =>
            MkNode part ∅ (if (i =? 0)%nat then false else is_last && is_leaf)
        | Some current =>
            if negb (i =? 0)%nat && is_last
            then MkNode (node_name current) (node_children current) is_leaf
            else current
        end in
      <[part := MkNode (node_name node)
                  (add_parts is_leaf (S i) rest (node_children node))
                  (node_is_leaf node)]> children
  end.

(** [_add_to_tree] *)
Definition _add_to_tree (tree : gmap string Node) (path : string) (is_leaf : bool)
  : gmap string Node :=
  if negb (Py.contains GT path)
  then
    match tree !! path with
    | None => <[path := MkNode path ∅ is_leaf]> tree
    | Some current =>
        <[path := MkNode (node_name current) (node_children current) is_leaf]> tree
    end
  else add_parts is_leaf 0 (Py.strip <$> Py.split GT path) tree.

(** The keys under which [_add_to_tree] files a path. *)
Definition path_parts (path : string) : list string :=
  if negb (Py.contains GT path) then [path] else Py.strip <$> Py.split GT path.

(** [tree["children"][p1]["children"][p2]...], the node found by
    descending along the parts; [None] is [KeyError]. *)
Fixpoint tree_find (parts : list string) (children : gmap string Node) : option Node :=
  match parts with
  | [] => None
  | part :: rest =>
      match children !! part with
      | None => None
      | Some node =>
          match rest with
          | [] => Some node
          | _ :: _ => tree_find rest (node_children node)
          end
      end
  end.

(** The tree that the loop of [_build_taxonomy_tree] builds: line 349
    adds each kept line with its leaf flag, in file order. *)
Definition build_tree (rows : list (string * bool)) : gmap string Node :=
  foldl (λ tree row, _add_to_tree tree row.1 row.2) ∅ rows.

Definition tree_of_lines (lines : list string) : gmap string Node :=
  let '(paths, is_leaf) := scan_lines (drop 1 lines) in
  build_tree (zip paths is_leaf).

(** ** Configuration ([config.py]) *)

(** The file [data/api_key.txt]: absent, present but unreadable, or
    holding a text. *)
Inductive KeyFile : Type :=
  | KeyFileAbsent
  | KeyFileUnreadable
  | KeyFileText (text : string).

(** Truth value of an optional string: [None] and the empty string are
    false. *)
Definition opt_truthy (o : option string) : bool :=
  match o with
  | Some s => Py.truthy s
  | None => false
  end.

(** [get_api_key]: the argument, else the environment variable, else
    the file. *)
Definition get_api_key (api_key_arg env_key : option string) (key_file : KeyFile)
  : option string :=
  if opt_truthy api_key_arg then api_key_arg
  else if opt_truthy env_key then env_key
  else
    match key_file with
    | KeyFileText text =>
        let key := Py.strip text in
        if Py.truthy key then Some key else None
    | _ => None
    end.






(** [TaxonomyNavigator.__init__]: the tree is built first, then the key
    is looked up. *)
Inductive InitResult : Type :=
  | InitRaises (e : PyError)
  | InitValueError
  | Initialized (nav : TaxonomyNavigator) (api_key : string).

Definition init_navigator (file : FileRead) (api_key_arg env_key : option string)
    (key_file : KeyFile) : InitResult :=
  match _build_taxonomy_tree file with
  | Raised e => InitRaises e
  | Constructed nav =>
      match get_api_key api_key_arg env_key key_file with
      | Some api_key => if Py.truthy api_key then Initialized nav api_key else InitValueError
      | None => InitValueError
      end
  end.

(** * Properties *)

(** ** The primitives on sample inputs *)

Example split_path :
  Py.split SEP "Electronics > Cell Phones > Smartphones"
  = ["Electronics"; "Cell Phones"; "Smartphones"].
Proof. reflexivity. Qed.

Example split_trailing : Py.split SEP "A > " = ["A"; EmptyString].
Proof. reflexivity. Qed.

Example strip_line : Py.strip "  Apparel > Shoes
" = "Apparel > Shoes".
Proof. reflexivity. Qed.

Example findall_ex : Py.findall_digits "option 12, or 7b" = ["12"; "7"].
Proof. reflexivity. Qed.

Example int_ex :
  Py.int "0_5" = Some 5 ∧ Py.int "-12" = Some (-12) ∧ Py.int "1.5" = None
  ∧ Py.int "5_" = None ∧ Py.int EmptyString = None.
Proof. repeat split; reflexivity. Qed.

(** ** String primitives *)

Section Strings.

Lemma app_cons (c : ascii) (s t : string) :
  String c s +:+ t = String c (s +:+ t).
Proof. reflexivity. Qed.

Lemma app_empty_l (t : string) : EmptyString +:+ t = t.
Proof. reflexivity. Qed.

Lemma app_empty_r (s : string) : s +:+ EmptyString = s.
Proof. induction s as [|c s IH]; [done | by rewrite app_cons, IH]. Qed.

Lemma app_assoc_s (a b c : string) : (a +:+ b) +:+ c = a +:+ (b +:+ c).
Proof. induction a as [|x a IH]; [done | by rewrite !app_cons, IH]. Qed.

(** [startswith] is the prefix relation. *)
Lemma startswith_spec (p s : string) :
  Py.startswith p s = true ↔ ∃ t, s = p +:+ t.
Proof.
  revert s. induction p as [|a p IH]; intros s; simpl.
  - split; [intros _; by exists s | done].
  - destruct s as [|b s].
    + split; [done | intros [t Ht]; discriminate].
    + rewrite andb_true_iff, bool_decide_eq_true, IH. split.
      * intros [-> [t ->]]. by exists t.
      * intros [t Ht]. rewrite app_cons in Ht. injection Ht as -> ->. eauto.
Qed.

Lemma startswith_empty (p : string) :
  Py.truthy p = true → Py.startswith p EmptyString = false.
Proof. by destruct p. Qed.

Lemma truthy_app_r (a b : string) : Py.truthy b = true → Py.truthy (a +:+ b) = true.
Proof. by destruct a. Qed.

Lemma split_go_nonempty sep skip cur s : Py.split_go sep skip cur s ≠ [].
Proof.
  revert skip cur. induction s as [|c s IH]; intros skip cur; simpl; [done|].
  destruct skip; [|apply IH].
  destruct (Py.startswith sep (String c s)); [done | apply IH].
Qed.

Lemma split_nonempty sep s : Py.split sep s ≠ [].
Proof. apply split_go_nonempty. Qed.

(** A split into one piece leaves the text whole. *)
Lemma split_go_singleton sep cur s x :
  Py.split_go sep 0 cur s = [x] → x = cur +:+ s.
Proof.
  revert cur. induction s as [|c s IH]; intros cur; simpl.
  - intros [= <-]. by rewrite app_empty_r.
  - destruct (Py.startswith sep (String c s)).
    + intros [= _ H]. by apply split_go_nonempty in H.
    + intros H%IH. by rewrite H, app_assoc_s, app_cons, app_empty_l.
Qed.

Lemma split_singleton sep s x : Py.split sep s = [x] → x = s.
Proof. apply split_go_singleton. Qed.

End Strings.

(** ** The index builder *)

Section Builder.

Lemma scan_lines_length rest :
  length (scan_lines rest).1 = length (scan_lines rest).2.
Proof.
  induction rest as [|raw later IH]; simpl; [done|].
  destruct (Py.truthy (Py.strip raw)); simpl; [|done].
  destruct (scan_lines later); simpl in *. by rewrite IH.
Qed.

Lemma index_lengths lines :
  length (all_paths (index_of_lines lines))
  = length (leaf_markers (index_of_lines lines)).
Proof.
  unfold index_of_lines.
  pose proof (scan_lines_length (drop 1 lines)) as H.
  by destruct (scan_lines (drop 1 lines)).
Qed.

(** The inner loop reads raw lines; it finds a child exactly when one
    of the paths kept from those lines is one. *)
Lemma child_among_paths line later :
  existsb (is_child_line line) later
  = existsb (Py.startswith (line +:+ SEP)) (scan_lines later).1.
Proof.
  induction later as [|raw later IH]; simpl; [done|].
  unfold is_child_line at 1; simpl.
  destruct (Py.truthy (Py.strip raw)) eqn:E; simpl.
  - destruct (scan_lines later); simpl in *. by rewrite IH.
  - done.
Qed.

Lemma existsb_lookup {A} (f : A → bool) (l : list A) :
  existsb f l = true ↔ ∃ j x, l !! j = Some x ∧ f x = true.
Proof.
  rewrite existsb_exists. split.
  - intros (x & Hin & Hx). apply list_elem_of_In, list_elem_of_lookup in Hin as [j Hj].
    eauto.
  - intros (j & x & Hj & Hx). exists x. split; [|done].
    apply list_elem_of_In, list_elem_of_lookup. eauto.
Qed.

Lemma scan_lines_leaf rest (i : nat) (p : string) :
  (scan_lines rest).1 !! i = Some p →
  ((scan_lines rest).2 !! i = Some true ↔
   ∀ (j : nat) (q : string),
     (i < j)%nat → (scan_lines rest).1 !! j = Some q →
     Py.startswith (p +:+ SEP) q = false).
Proof.
  revert i. induction rest as [|raw later IH]; intros i; simpl; [done|].
  destruct (Py.truthy (Py.strip raw)) eqn:E; simpl; [|apply IH].
  pose proof (child_among_paths (Py.strip raw) later) as Hc.
  destruct (scan_lines later) as [paths flags] eqn:Es; simpl in *.
  destruct i as [|i]; simpl.
  - intros [= <-]. rewrite Hc. split.
    + intros [= Hn] j q Hj Hq. apply negb_true_iff in Hn.
      destruct j as [|j]; [lia|]. simpl in Hq.
      destruct (Py.startswith _ q) eqn:Hs; [|done].
      assert (existsb (Py.startswith (Py.strip raw +:+ SEP)) paths = true) as Hex
        by (apply existsb_lookup; eauto).
      congruence.
    + intros Hall. f_equal. apply negb_true_iff, not_true_is_false.
      intros (j & q & Hq & Hs)%existsb_lookup.
      specialize (Hall (S j) q). simpl in Hall. rewrite Hall in Hs; [done|lia|done].
  - intros Hp. rewrite (IH i Hp). split.
    + intros Hall j q Hj Hq. destruct j as [|j]; [lia|]. simpl in Hq.
      apply (Hall j); [lia|done].
    + intros Hall j q Hj Hq. apply (Hall (S j)); [lia|done].
Qed.

End Builder.

(** C1 (as amended).  For every taxonomy file, the flag the builder
    computes for a path is true exactly when no path that comes LATER in
    the file starts with that path's text followed by the separator.
    Paths that come earlier in the file are not examined. *)
Theorem leaf_iff_no_later_descendant (lines : list string) (i : nat) (p : string) :
  all_paths (index_of_lines lines) !! i = Some p →
  (leaf_markers (index_of_lines lines) !! i = Some true ↔
   ∀ (j : nat) (q : string),
     (i < j)%nat → all_paths (index_of_lines lines) !! j = Some q →
     Py.startswith (p +:+ SEP) q = false).
Proof.
  unfold index_of_lines.
  pose proof (scan_lines_leaf (drop 1 lines) i p) as H.
  by destruct (scan_lines (drop 1 lines)).
Qed.

Lemma leaf_iff_no_later_descendant_witness :
  let lines := ["# header"; "Electronics"; "Electronics > Computers";
                "Electronics > Computers > Laptops"] in
  all_paths (index_of_lines lines) !! 2%nat = Some "Electronics > Computers > Laptops"
  ∧ (leaf_markers (index_of_lines lines) !! 2%nat = Some true ↔
     ∀ (j : nat) (q : string),
       (2 < j)%nat → all_paths (index_of_lines lines) !! j = Some q →
       Py.startswith ("Electronics > Computers > Laptops" +:+ SEP) q = false).
Proof.
  split; [reflexivity|].
  apply (leaf_iff_no_later_descendant
           ["# header"; "Electronics"; "Electronics > Computers";
            "Electronics > Computers > Laptops"] 2 "Electronics > Computers > Laptops").
  reflexivity.
Defined.

(** C1, counterexample.  In the file whose paths are [A > B] then [A],
    the path [A] is flagged as a leaf although [A > B] starts with
    [A] followed by the separator. *)
Lemma leaf_anywhere_counterexample :
  ¬ leaf_iff_no_descendant_anywhere (index_of_lines ["# header"; "A > B"; "A"]).
Proof.
  intros H. specialize (H 1%nat "A" eq_refl) as [H _].
  specialize (H eq_refl 0%nat "A > B"). simpl in H.
  discriminate H; [lia | reflexivity].
Qed.

(** A line that is blank once stripped. *)
Lemma scan_lines_blank rest :
  forallb (λ raw, negb (Py.truthy (Py.strip raw))) rest = true →
  scan_lines rest = ([], []).
Proof.
  induction rest as [|raw later IH]; simpl; [done|].
  intros [Hraw Hlater]%andb_true_iff. rewrite Hraw. by apply IH.
Qed.

(** C4 (as amended).  The builder fails, with [FileNotFoundError], when
    the taxonomy file is missing.  On a file that is empty, or that
    holds nothing but blank lines after its header line, it does not
    fail: it constructs the index with no path and no leaf flag. *)
Theorem build_missing_or_empty :
  _build_taxonomy_tree Missing = Raised FileNotFoundError
  ∧ _build_taxonomy_tree (Lines [])
    = Constructed {| all_paths := []; leaf_markers := [] |}
  ∧ ∀ lines : list string,
      forallb (λ raw, negb (Py.truthy (Py.strip raw))) (drop 1 lines) = true →
      _build_taxonomy_tree (Lines lines)
      = Constructed {| all_paths := []; leaf_markers := [] |}.
Proof.
  split; [reflexivity|]. split; [reflexivity|].
  intros lines Hblank. unfold _build_taxonomy_tree, index_of_lines.
  by rewrite (scan_lines_blank _ Hblank).
Qed.

Lemma build_missing_or_empty_witness :
  _build_taxonomy_tree (Lines ["# header"])
  = Constructed {| all_paths := []; leaf_markers := [] |}
  ∧ _build_taxonomy_tree (Lines ["# header"; "   "; NL])
    = Constructed {| all_paths := []; leaf_markers := [] |}.
Proof.
  destruct build_missing_or_empty as (_ & _ & Hblank).
  split; apply Hblank; reflexivity.
Defined.

(** C4, counterexample.  A file that holds its header line only is
    built into an index; nothing is raised. *)
Lemma build_rejects_empty_counterexample : ¬ build_rejects_empty.
Proof.
  intros H. destruct (H ["# header"] eq_refl) as [e He]. discriminate He.
Qed.

(** ** Numeric parsing of stage 3 *)

Section Parsing.

Lemma digit_not_space c : Py.is_digit c = true → Py.is_space c = false.
Proof.
  unfold Py.is_digit, Py.is_space. intros [H1 H2]%andb_true_iff.
  apply N.leb_le in H1, H2.
  apply orb_false_iff; split; apply andb_false_iff.
  - right. apply N.leb_gt. lia.
  - right. apply N.leb_gt. lia.
Qed.

Lemma digit_lower c : Py.is_digit c = true → Py.lower_char c = c.
Proof.
  unfold Py.is_digit, Py.lower_char. intros [H1 H2]%andb_true_iff.
  apply N.leb_le in H1, H2.
  replace (65 <=? Py.code c)%N with false; [done|].
  symmetry. apply N.leb_gt. lia.
Qed.

Lemma digits_lstrip s : Py.all_digits s = true → Py.lstrip s = s.
Proof.
  destruct s as [|c s]; simpl; [done|].
  intros [H _]%andb_true_iff. by rewrite (digit_not_space c H).
Qed.

Lemma digits_rstrip s : Py.all_digits s = true → Py.rstrip s = s.
Proof.
  induction s as [|c s IH]; simpl; [done|].
  intros [H Hs]%andb_true_iff.
  by rewrite (IH Hs), (digit_not_space c H), andb_false_r.
Qed.

Lemma digits_strip s : Py.all_digits s = true → Py.strip s = s.
Proof. intros H. unfold Py.strip. by rewrite (digits_lstrip s H), digits_rstrip. Qed.

Lemma digits_lower s : Py.all_digits s = true → Py.lower s = s.
Proof.
  induction s as [|c s IH]; simpl; [done|].
  intros [H Hs]%andb_true_iff. unfold Py.lower in *; simpl.
  by rewrite (digit_lower c H), (IH Hs).
Qed.

Lemma digits_cleaned s : Py.all_digits s = true → cleaned s = s.
Proof.
  intros H. unfold cleaned. by rewrite !(digits_strip s H), (digits_lower s H).
Qed.

(** A text of digits is one run. *)
Lemma findall_digits_go_run cur s :
  Py.all_digits s = true → Py.truthy (cur +:+ s) = true →
  Py.findall_digits_go cur s = [cur +:+ s].
Proof.
  revert cur. induction s as [|c s IH]; intros cur; simpl.
  - intros _. rewrite app_empty_r. unfold Py.flush. by intros ->.
  - intros [H Hs]%andb_true_iff _. rewrite H.
    rewrite IH, app_assoc_s; [done | done |].
    rewrite app_assoc_s. by apply truthy_app_r.
Qed.

Lemma findall_digits_run s :
  Py.all_digits s = true → Py.truthy s = true → Py.findall_digits s = [s].
Proof. intros. by apply (findall_digits_go_run EmptyString). Qed.

Lemma int_body_digits st acc s :
  Py.all_digits s = true → Py.truthy s = true ∨ st = Py.IntDigit →
  Py.int_body st acc s = Some (Py.digits_value_go acc s).
Proof.
  revert st acc. induction s as [|c s IH]; intros st acc; simpl.
  - intros _ [?| ->]; done.
  - intros [H Hs]%andb_true_iff _. rewrite H. apply IH; auto.
Qed.

Lemma int_digits s :
  Py.all_digits s = true → Py.truthy s = true →
  Py.int s = Some (Py.digits_value s).
Proof.
  intros Hd Ht. destruct s as [|c s]; [done|].
  unfold Py.int. pose proof Hd as [Hc _]%andb_true_iff.
  repeat case_bool_decide; subst; try discriminate Hc.
  apply int_body_digits; auto.
Qed.

Lemma digits_not_meaningless s :
  Py.all_digits s = true → Py.truthy s = true →
  inb s meaningless_responses = false.
Proof.
  intros Hd Ht. apply bool_decide_eq_false. unfold meaningless_responses.
  intros Hin. repeat (apply elem_of_cons in Hin as [-> | Hin]; [discriminate Hd|]).
  by apply elem_of_nil in Hin.
Qed.

(** A number out of range is neither accepted nor a failure: the
    parser falls through to its default, the first candidate. *)
Lemma parse_digits_out_of_range digits max_options :
  Py.truthy digits = true → Py.all_digits digits = true →
  in_range (Py.digits_value digits) max_options = false →
  _parse_and_validate_number (Content digits) max_options = 0.
Proof.
  intros Ht Hd Hr. unfold _parse_and_validate_number.
  fold (cleaned digits). rewrite (digits_cleaned _ Hd), Ht. simpl.
  unfold first_number_index, direct_number_index.
  by rewrite (findall_digits_run _ Hd Ht), Hr, (int_digits _ Hd Ht), Hr,
    (digits_not_meaningless _ Hd Ht).
Qed.

Lemma parse_in_range text number max_options :
  Py.truthy (cleaned text) = true →
  Py.findall_digits (cleaned text) = [number] →
  in_range (Py.digits_value number) max_options = true →
  _parse_and_validate_number (Content text) max_options
  = Py.digits_value number - 1.
Proof.
  intros Ht Hf Hr. unfold _parse_and_validate_number.
  fold (cleaned text). rewrite Ht. simpl.
  unfold first_number_index. by rewrite Hf, Hr.
Qed.

End Parsing.

(** C5 (as amended).  In stage 3, ["1"] maps to index 0 and ["Option 2"]
    maps to index 1 when there are that many candidates.  The response
    ["0"], and any number above the count of candidates, is not accepted
    as its own index; it is not a failure either: the parser falls
    through to its default and returns index 0, the first candidate. *)
Theorem parse_number_amended :
  (∀ max_options, 1 ≤ max_options →
     _parse_and_validate_number (Content "1") max_options = 0)
  ∧ (∀ max_options, 2 ≤ max_options →
     _parse_and_validate_number (Content "Option 2") max_options = 1)
  ∧ (∀ max_options, _parse_and_validate_number (Content "0") max_options = 0)
  ∧ (∀ digits max_options,
       Py.truthy digits = true → Py.all_digits digits = true →
       max_options < Py.digits_value digits →
       _parse_and_validate_number (Content digits) max_options = 0).
Proof.
  split; [|split; [|split]].
  - intros m Hm. rewrite (parse_in_range "1" "1"); try reflexivity.
    unfold in_range. apply andb_true_iff. split; apply Z.leb_le; [done|].
    change (Py.digits_value "1") with 1. lia.
  - intros m Hm. rewrite (parse_in_range "Option 2" "2"); try reflexivity.
    unfold in_range. apply andb_true_iff. split; apply Z.leb_le; [done|].
    change (Py.digits_value "2") with 2. lia.
  - intros m. by apply parse_digits_out_of_range.
  - intros digits m Ht Hd Hm. apply parse_digits_out_of_range; [done..|].
    unfold in_range. apply andb_false_iff. right. apply Z.leb_gt. lia.
Qed.

Lemma parse_number_amended_witness :
  _parse_and_validate_number (Content "1") 3 = 0
  ∧ _parse_and_validate_number (Content "Option 2") 3 = 1
  ∧ _parse_and_validate_number (Content "0") 3 = 0
  ∧ _parse_and_validate_number (Content "4") 3 = 0.
Proof.
  destruct parse_number_amended as (H1 & H2 & H0 & Hbig).
  split; [apply H1; lia|]. split; [apply H2; lia|]. split; [apply H0|].
  apply Hbig; [reflexivity | reflexivity | reflexivity].
Defined.

(** C5, counterexample.  With three candidates, the response ["0"] is
    parsed to index 0, the first candidate, not to the failure value. *)
Lemma out_of_range_counterexample : ¬ out_of_range_selects_nothing.
Proof.
  intros H. specialize (H "0" 3 eq_refl eq_refl eq_refl). discriminate H.
Qed.

(** ** Calls of the gateway *)

Section Pipeline.

Lemma elem_of_leaf_paths nav path :
  path ∈ leaf_paths nav ↔
  ∃ i : nat, all_paths nav !! i = Some path ∧ leaf_markers nav !! i = Some true.
Proof.
  unfold leaf_paths. rewrite list_elem_of_omap. split.
  - intros ([p b] & Hin & Hf). simpl in Hf. destruct b; [|done].
    injection Hf as ->. apply list_elem_of_lookup in Hin as [i Hi].
    apply lookup_zip_with_Some in Hi as (x & y & [= -> ->] & Hx & Hy). eauto.
  - intros (i & Hp & Hm). exists (path, true). split; [|done].
    apply list_elem_of_lookup. exists i. apply lookup_zip_with_Some. eauto.
Qed.

Lemma full_paths_of_elem nav selected_leaf parts :
  parts ∈ full_paths_of nav selected_leaf →
  Py.last_part parts = selected_leaf
  ∧ ∃ path, path ∈ leaf_paths nav ∧ parts = Py.split SEP path.
Proof.
  unfold full_paths_of. rewrite list_elem_of_omap. intros (path & Hin & Hf).
  destruct (Py.endswith selected_leaf path); [|done].
  case_bool_decide as Hl; [|done]. injection Hf as <-. eauto.
Qed.

(** The guard of line 863 repeats the test that stage 2B makes. *)
Lemma stage2b_guard nav summary l1s excluded :
  (if (2 <=? length l1s)%nat
   then stage2b_second_leaf_selection nav summary l1s excluded
   else ret [])
  = stage2b_second_leaf_selection nav summary l1s excluded.
Proof. by destruct l1s as [|? [|? ?]]. Qed.

(** [navigate_taxonomy], from the state in which stage 3 is reached. *)
Lemma navigate_from_candidates nav info gw n0 summary leaves n :
  candidates nav info gw n0 = (summary, leaves, n) →
  leaves ≠ [] →
  navigate_outcome nav info gw n0 = final_selection nav summary leaves gw n.
Proof.
  unfold candidates, navigate_outcome, bind, ret.
  destruct (generate_product_summary info gw n0) as [s n1].
  destruct (stage1_l1_selection nav s gw n1) as [l1s n2].
  destruct l1s as [|l1 l1s].
  - unfold leaf_selection, bind, ret. simpl. by intros [= <- <- <-].
  - destruct (leaf_selection nav s (l1 :: l1s) gw n2) as [ls n3].
    intros [= <- <- <-] Hne. by destruct ls.
Qed.

End Pipeline.

(** C8.  Resolving a chosen leaf name to full paths keeps the leaf
    paths whose final segment EQUALS the name: every path returned for
    a name ends in exactly that name, so looking up ["Shoes"] never
    returns a path whose final segment is ["Running Shoes"]. *)
Theorem full_path_final_segment_exact (lines : list string)
    (selected_leaf : string) (parts : list string) :
  parts ∈ full_paths_of (index_of_lines lines) selected_leaf →
  Py.last_part parts = selected_leaf
  ∧ (∃ path, path ∈ leaf_paths (index_of_lines lines) ∧ parts = Py.split SEP path)
  ∧ (selected_leaf = "Shoes" → Py.last_part parts ≠ "Running Shoes").
Proof.
  intros [Hl Hp]%full_paths_of_elem. split; [done|]. split; [done|].
  intros ->. by rewrite Hl.
Qed.

Lemma full_path_final_segment_exact_witness :
  let lines := ["# header"; "Apparel > Running Shoes"; "Footwear > Shoes"] in
  full_paths_of (index_of_lines lines) "Shoes" = [["Footwear"; "Shoes"]]
  ∧ Py.endswith "Shoes" "Apparel > Running Shoes" = true
  ∧ Py.last_part ["Footwear"; "Shoes"] = "Shoes".
Proof.
  split; [reflexivity|]. split; [reflexivity|].
  apply (full_path_final_segment_exact
           ["# header"; "Apparel > Running Shoes"; "Footwear > Shoes"]
           "Shoes" ["Footwear"; "Shoes"]).
  apply (bool_decide_unpack _). vm_compute. exact I.
Defined.

(** ** Stage 3 *)

Section Stage3.

Lemma parse_non_answer text max_options :
  inb (cleaned text) non_answers = true →
  _parse_and_validate_number (Content text) max_options = -1.
Proof.
  intros Hin%bool_decide_eq_true. unfold _parse_and_validate_number.
  fold (cleaned text). unfold non_answers, meaningless_responses in Hin.
  repeat (apply elem_of_cons in Hin as [-> | Hin]; [reflexivity|]).
  by apply elem_of_nil in Hin.
Qed.

Lemma parse_default text max_options :
  Py.truthy (cleaned text) = true →
  first_number_index (cleaned text) max_options = None →
  direct_number_index (cleaned text) max_options = None →
  inb (cleaned text) meaningless_responses = false →
  _parse_and_validate_number (Content text) max_options = 0.
Proof.
  intros Ht Hf Hd Hm. unfold _parse_and_validate_number.
  fold (cleaned text). by rewrite Ht, Hf, Hd, Hm.
Qed.

Lemma stage3_non_answer summary leaves gw n text :
  (2 ≤ length leaves)%nat →
  gw n (Stage3Request summary (enumerate1 leaves)) = Returned (Content text) →
  inb (cleaned text) non_answers = true →
  stage3_final_selection summary leaves gw n = (-1, S n).
Proof.
  intros Hlen Hgw Hin. destruct leaves as [|x [|y rest]]; simpl in Hlen; [lia..|].
  unfold stage3_final_selection, bind, call, ret. rewrite Hgw.
  by rewrite (parse_non_answer _ _ Hin).
Qed.

End Stage3.

(** C7 (as amended).  In stage 3, when the stripped, lower-case response
    is empty or one of the words ["none"], ["null"], ["error"], ["fail"],
    ["false"], ["n/a"], ["na"], ["unknown"], parsing fails (-1) and the
    pipeline returns the failure sentinel.  Any other response from
    which no selection is parsed selects index 0, the first candidate. *)
Theorem stage3_non_answer_policy :
  (∀ text max_options,
     inb (cleaned text) non_answers = true →
     _parse_and_validate_number (Content text) max_options = -1)
  ∧ (∀ text max_options,
       inb (cleaned text) non_answers = false →
       first_number_index (cleaned text) max_options = None →
       direct_number_index (cleaned text) max_options = None →
       _parse_and_validate_number (Content text) max_options = 0)
  ∧ (∀ lines product_info gw summary leaves n text,
       candidates (index_of_lines lines) product_info gw 0%nat = (summary, leaves, n) →
       (2 ≤ length leaves)%nat →
       gw n (Stage3Request summary (enumerate1 leaves)) = Returned (Content text) →
       inb (cleaned text) non_answers = true →
       navigate_taxonomy (index_of_lines lines) product_info gw 0%nat = (FAILURE, S n)).
Proof.
  split; [|split].
  - apply parse_non_answer.
  - intros text m Hn Hf Hd. apply bool_decide_eq_false in Hn.
    unfold non_answers in Hn. apply parse_default; [|done|done|].
    + destruct (cleaned text); [|done]. exfalso. apply Hn, list_elem_of_here.
    + apply bool_decide_eq_false. intros Hin. apply Hn. by apply list_elem_of_further.
  - intros lines info gw summary leaves n text Hc Hlen Hgw Hin.
    unfold navigate_taxonomy, bind, ret.
    rewrite (navigate_from_candidates _ _ _ _ _ _ _ Hc)
      by (intros ->; simpl in Hlen; lia).
    unfold final_selection, bind.
    replace (length leaves =? 1)%nat with false
      by (symmetry; apply Nat.eqb_neq; lia).
    by rewrite (stage3_non_answer _ _ _ _ _ Hlen Hgw Hin).
Qed.

Lemma stage3_non_answer_policy_witness :
  let gw := sample_gateway "Electronics" " N/A " in
  _parse_and_validate_number (Content " N/A ") 2 = -1
  ∧ _parse_and_validate_number (Content "maybe the second") 2 = 0
  ∧ navigate_taxonomy (index_of_lines sample_lines) "iPhone 14" gw 0%nat = (FAILURE, 4%nat).
Proof.
  destruct stage3_non_answer_policy as (Hfail & Hdefault & Hpipe).
  split; [by apply Hfail|]. split; [by apply Hdefault|].
  apply (Hpipe sample_lines "iPhone 14" (sample_gateway "Electronics" " N/A ")
           "iPhone 14" ["Smartphones"; "Laptops"] 3%nat " N/A ").
  - vm_compute. reflexivity.
  - simpl. lia.
  - reflexivity.
  - reflexivity.
Defined.

(** C7, counterexample.  The response ["null"] is not among the
    non-answers the claim lists and no selection is parsed from it, yet
    it does not select the first candidate: parsing fails. *)
Lemma other_unparseable_counterexample : ¬ other_unparseable_selects_first.
Proof.
  intros H. specialize (H "null" 3 eq_refl eq_refl eq_refl). discriminate H.
Qed.

(** ** Stage 2 *)

Section Stage2.

Lemma first_seen_elem x xs : x ∈ first_seen xs ↔ x ∈ xs.
Proof.
  induction xs as [|y xs IH]; simpl; [done|].
  rewrite !elem_of_cons, list_elem_of_filter, IH.
  destruct (decide (x = y)); tauto.
Qed.

Lemma first_seen_NoDup xs : NoDup (first_seen xs).
Proof.
  induction xs as [|y xs IH]; simpl; [constructor|].
  apply NoDup_cons. split.
  - rewrite list_elem_of_filter. intros [Hy _]. by apply Hy.
  - by apply NoDup_filter.
Qed.

Lemma filter_all {A} (P : A → Prop) `{!∀ x, Decision (P x)} (l : list A) :
  (∀ x, P x) → filter P l = l.
Proof.
  intros HP. induction l as [|x l IH]; [done|].
  by rewrite filter_cons_True, IH.
Qed.

(** The loop of lines 714-719 from any state in which [seen] holds
    the names of [out]. *)
Lemma unique_fold (seen : gset string) (out xs : list string) :
  (∀ x, x ∈ seen ↔ x ∈ out) →
  (foldl unique_step (seen, out) xs).2
  = out ++ filter (λ y, y ∉ out) (first_seen xs).
Proof.
  revert seen out. induction xs as [|x xs IH]; intros seen out Hseen; simpl.
  - by rewrite filter_nil, app_nil_r.
  - unfold unique_step at 2; simpl. case_bool_decide as Hx.
    + apply Hseen in Hx. rewrite (IH _ _ Hseen). f_equal.
      rewrite filter_cons_False by (intros Hn; by apply Hn).
      rewrite list_filter_filter. apply list_filter_iff.
      intros y. split; [|tauto]. intros Hy. split; [done|]. by intros ->.
    + assert (x ∉ out) as Hx' by (by rewrite <- Hseen).
      rewrite (IH ({[x]} ∪ seen) (out ++ [x])).
      * rewrite <- app_assoc. f_equal. simpl.
        rewrite filter_cons_True by done.
        f_equal. rewrite list_filter_filter. apply list_filter_iff.
        intros y. rewrite elem_of_app, list_elem_of_singleton. tauto.
      * intros y. rewrite elem_of_union, elem_of_singleton, elem_of_app,
          list_elem_of_singleton, Hseen. tauto.
Qed.

(** The code's deduplication is the specification's. *)
Lemma unique_leaves_first_seen xs : unique_leaves xs = first_seen xs.
Proof.
  unfold unique_leaves. rewrite (unique_fold ∅ []); simpl.
  - apply filter_all. intros y. apply not_elem_of_nil.
  - intros x. rewrite elem_of_empty. split; [done|]. apply not_elem_of_nil.
Qed.

Lemma filtered_leaves_not_excluded nav l1s excluded x :
  x ∈ filtered_leaves nav l1s excluded → x ∉ excluded.
Proof.
  unfold filtered_leaves. rewrite list_elem_of_omap. intros (path & _ & Hf).
  destruct (inb _ l1s); simpl in Hf; [|done].
  destruct (inb _ excluded) eqn:E; simpl in Hf; [done|].
  injection Hf as <-. by apply bool_decide_eq_false in E.
Qed.

Lemma select_number_elem batch num_str x :
  x ∈ select_number (leaf_mapping_of batch) num_str → x ∈ batch.
Proof.
  unfold select_number.
  destruct (_ && _); [|by intros ?%elem_of_nil].
  destruct (leaf_mapping_of batch !! _) as [leaf|] eqn:E; [|by intros ?%elem_of_nil].
  intros ->%list_elem_of_singleton.
  apply elem_of_list_to_map_2 in E. by apply elem_of_zip_r in E.
Qed.

Lemma batch_selection_elem batch text x :
  x ∈ batch_selection (leaf_mapping_of batch) text → x ∈ batch.
Proof.
  unfold batch_selection. case_bool_decide; [by intros ?%elem_of_nil|].
  intros (l & Hx & Hl)%list_elem_of_join.
  apply list_elem_of_fmap in Hl as (line & -> & _).
  destruct (Py.truthy _); [|by apply elem_of_nil in Hx].
  apply list_elem_of_join in Hx as (l & Hx & Hl).
  apply list_elem_of_fmap in Hl as (num_str & -> & _).
  by apply select_number_elem in Hx.
Qed.

Lemma process_batch_elem summary leaf_to_l1 filtered start gw n x :
  x ∈ (process_batch summary leaf_to_l1 filtered start gw n).1 → x ∈ filtered.
Proof.
  unfold process_batch.
  destruct (take _ (drop start filtered)) as [|b batch] eqn:E;
    [by intros ?%elem_of_nil|].
  unfold bind, call, ret.
  destruct (gw n _) as [|[|text]]; simpl; try by intros ?%elem_of_nil.
  intros Hx%batch_selection_elem. rewrite <- E in Hx.
  by apply subseteq_take, subseteq_drop in Hx.
Qed.

Lemma for_each_batch_elem (body : nat → M (list string)) (P : string → Prop) :
  (∀ start gw n x, x ∈ (body start gw n).1 → P x) →
  ∀ starts gw n x, x ∈ (for_each_batch body starts gw n).1 → P x.
Proof.
  intros Hbody starts. induction starts as [|s starts IH]; intros gw n x; simpl.
  - by intros ?%elem_of_nil.
  - unfold bind, ret.
    destruct (body s gw n) as [sel n1] eqn:E1.
    destruct (for_each_batch body starts gw n1) as [more n2] eqn:E2. simpl.
    intros [Hx|Hx]%elem_of_app.
    + apply (Hbody s gw n). by rewrite E1.
    + apply (IH gw n1). by rewrite E2.
Qed.

Lemma all_selected_numbers_elem nav summary l1s excluded gw n x :
  x ∈ (all_selected_numbers nav summary l1s excluded gw n).1 →
  x ∈ filtered_leaves nav l1s excluded.
Proof.
  unfold all_selected_numbers.
  apply (for_each_batch_elem _ (λ x, x ∈ filtered_leaves nav l1s excluded)).
  intros start gw' n'. apply process_batch_elem.
Qed.

(** The helper returns the selections of its batches, first seen first. *)
Lemma leaf_selection_helper_eq nav summary l1s excluded gw n :
  _leaf_selection_helper nav summary l1s excluded gw n
  = (first_seen (all_selected_numbers nav summary l1s excluded gw n).1,
     (all_selected_numbers nav summary l1s excluded gw n).2).
Proof.
  unfold _leaf_selection_helper, all_selected_numbers.
  destruct (filtered_leaves nav l1s excluded) as [|f fs] eqn:E; [done|].
  unfold bind, ret. fold (all_selected_numbers nav summary l1s excluded).
  rewrite <- E.
  destruct (for_each_batch _ _ gw n) as [sel n']. simpl.
  by rewrite unique_leaves_first_seen.
Qed.

End Stage2.

Section Stage2Merge.

Lemma stage2a_eq nav summary l1s gw n :
  stage2a_first_leaf_selection nav summary l1s gw n
  = (first_seen (stage2a_encountered nav summary l1s gw n).1,
     (stage2a_encountered nav summary l1s gw n).2).
Proof. destruct l1s; [done|]. apply leaf_selection_helper_eq. Qed.

Lemma stage2b_eq nav summary l1s excluded gw n :
  stage2b_second_leaf_selection nav summary l1s excluded gw n
  = (first_seen (stage2b_encountered nav summary l1s excluded gw n).1,
     (stage2b_encountered nav summary l1s excluded gw n).2).
Proof. destruct l1s as [|? [|? ?]]; [done..|]. apply leaf_selection_helper_eq. Qed.

(** Stage 2B selects nothing that it was told to exclude. *)
Lemma stage2b_excludes nav summary l1s excluded gw n x :
  x ∈ (stage2b_second_leaf_selection nav summary l1s excluded gw n).1 →
  x ∉ excluded.
Proof.
  rewrite stage2b_eq. simpl. rewrite first_seen_elem.
  destruct l1s as [|? [|second ?]]; simpl; [by intros ?%elem_of_nil..|].
  intros Hx%all_selected_numbers_elem. by apply filtered_leaves_not_excluded in Hx.
Qed.


End Stage2Merge.

(** C9.  The candidate list that stage 2 hands to stage 3 is the result
    of branch 2A followed by the result of branch 2B, which is run with
    the leaves of 2A excluded.  It holds no leaf name twice, and each
    branch's part lists the names its batch responses selected, each at
    the place where it was first selected. *)
Theorem merged_candidates_unique_ordered (lines : list string) (summary : string)
    (selected_l1s : list string) (gw : Gateway) (n : nat) :
  let nav := index_of_lines lines in
  let a := stage2a_first_leaf_selection nav summary selected_l1s gw n in
  let b := stage2b_second_leaf_selection nav summary selected_l1s a.1 gw a.2 in
  (leaf_selection nav summary selected_l1s gw n).1 = a.1 ++ b.1
  ∧ NoDup (a.1 ++ b.1)
  ∧ a.1 = first_seen (stage2a_encountered nav summary selected_l1s gw n).1
  ∧ b.1 = first_seen (stage2b_encountered nav summary selected_l1s a.1 gw a.2).1.
Proof.
  intros nav a b. split; [|split; [|split]].
  - subst b a. unfold leaf_selection, bind.
    destruct (stage2a_first_leaf_selection nav summary selected_l1s gw n) as [la na].
    rewrite stage2b_guard. cbn [fst snd].
    by destruct (stage2b_second_leaf_selection nav summary selected_l1s la gw na).
  - apply NoDup_app. split; [|split].
    + unfold a. rewrite stage2a_eq. apply first_seen_NoDup.
    + intros x Hx Hb. by apply stage2b_excludes in Hb.
    + unfold b. rewrite stage2b_eq. apply first_seen_NoDup.
  - unfold a. by rewrite stage2a_eq.
  - unfold b. by rewrite stage2b_eq.
Qed.

Example merged_candidates_sample :
  let gw := sample_gateway "Electronics
Apparel" "2" in
  (leaf_selection (index_of_lines sample_lines) "iPhone 14"
     ["Electronics"; "Apparel"] gw 2%nat).1
  = ["Smartphones"; "Laptops"].
Proof. vm_compute. reflexivity. Qed.

(** ** Stage 1 *)

Section Stage1.

Lemma foldl_invariant {S B} (step : S → B → S) (I : S → Prop) (l : list B) :
  (∀ st b, b ∈ l → I st → I (step st b)) →
  ∀ st, I st → I (foldl step st l).
Proof.
  induction l as [|b l IH]; intros Hstep st Hst; simpl; [done|].
  apply IH.
  - intros st' b' Hb'. apply Hstep. by apply list_elem_of_further.
  - apply Hstep; [apply list_elem_of_here | done].
Qed.

(** Both deduplicating loops only ever append to their output. *)
Lemma foldl_grows {B} (step : gset string * list string → B → gset string * list string)
    (l : list B) :
  (∀ st b, ∃ k, (step st b).2 = st.2 ++ k) →
  ∀ st, ∃ k, (foldl step st l).2 = st.2 ++ k.
Proof.
  intros Hstep. induction l as [|b l IH]; intros st; simpl.
  - exists []. by rewrite app_nil_r.
  - destruct (IH (step st b)) as [k ->]. destruct (Hstep st b) as [k' ->].
    exists (k' ++ k). by rewrite app_assoc.
Qed.

Lemma unique_step_lower_grows st c : ∃ k, (unique_step_lower st c).2 = st.2 ++ k.
Proof.
  unfold unique_step_lower. case_bool_decide; simpl; [|by eexists].
  exists []. by rewrite app_nil_r.
Qed.

Lemma add_valid_grows st c : ∃ k, (add_valid st c).2 = st.2 ++ k.
Proof.
  unfold add_valid. case_bool_decide; simpl; [|by eexists].
  exists []. by rewrite app_nil_r.
Qed.

Lemma validate_step_grows avail st selected :
  ∃ k, (validate_step avail st selected).2 = st.2 ++ k.
Proof.
  unfold validate_step. destruct (List.filter _ avail); [|apply add_valid_grows].
  destruct (List.find _ avail); apply add_valid_grows.
Qed.

Lemma unique_categories_subset l x : x ∈ unique_categories l → x ∈ l.
Proof.
  unfold unique_categories.
  apply (foldl_invariant unique_step_lower (λ st, ∀ y, y ∈ st.2 → y ∈ l)).
  - intros st b Hb Hst y. unfold unique_step_lower.
    case_bool_decide; simpl; [apply Hst|].
    intros [Hy| ->%list_elem_of_singleton]%elem_of_app; [by apply Hst | done].
  - intros y. simpl. by intros ?%elem_of_nil.
Qed.

Lemma unique_categories_head x l : ∃ k, unique_categories (x :: l) = x :: k.
Proof.
  unfold unique_categories. simpl. unfold unique_step_lower at 2. simpl.
  rewrite bool_decide_eq_false_2 by apply not_elem_of_empty.
  destruct (foldl_grows unique_step_lower l unique_step_lower_grows
              ({[Py.lower x]} ∪ ∅, [x])) as [k ->].
  by exists k.
Qed.

(** On a name that is in the list, [_validate_categories] takes its
    first branch: it finds a name of the list equal to it up to case. *)
Lemma matching_head avail selected :
  selected ∈ avail →
  ∃ matched rest,
    List.filter (λ c, bool_decide (Py.lower c = Py.lower selected)) avail
    = matched :: rest
    ∧ matched ∈ avail ∧ Py.lower matched = Py.lower selected.
Proof.
  intros Hin.
  destruct (List.filter _ avail) as [|matched rest] eqn:E.
  - exfalso. apply list_elem_of_In in Hin.
    assert (In selected (List.filter
              (λ c, bool_decide (Py.lower c = Py.lower selected)) avail)) as H.
    { apply filter_In. split; [done|]. by apply bool_decide_eq_true. }
    by rewrite E in H.
  - exists matched, rest. split; [done|].
    assert (In matched (List.filter
              (λ c, bool_decide (Py.lower c = Py.lower selected)) avail)) as H
      by (rewrite E; by left).
    apply filter_In in H as [H1 H2]. apply bool_decide_eq_true in H2.
    split; [by apply list_elem_of_In | done].
Qed.

Lemma validate_categories_exact sel avail c :
  (∀ s, s ∈ sel → s ∈ avail) →
  c ∈ _validate_categories sel avail →
  c ∈ avail ∧ ∃ s, s ∈ sel ∧ Py.lower c = Py.lower s.
Proof.
  intros Hsel. unfold _validate_categories. revert c.
  apply (foldl_invariant (validate_step avail)
           (λ st, ∀ c, c ∈ st.2 → c ∈ avail ∧ ∃ s, s ∈ sel ∧ Py.lower c = Py.lower s)).
  - intros st s Hs Hst c. unfold validate_step.
    destruct (matching_head avail s (Hsel s Hs)) as (m & rest & -> & Hm & Hl).
    unfold add_valid. case_bool_decide; simpl; [apply Hst|].
    intros [Hc| ->%list_elem_of_singleton]%elem_of_app; [by apply Hst|].
    split; [done|]. eauto.
  - intros c. simpl. by intros ?%elem_of_nil.
Qed.

Lemma validate_categories_nonempty s sel avail :
  s ∈ avail → _validate_categories (s :: sel) avail ≠ [].
Proof.
  intros Hs. unfold _validate_categories. simpl.
  unfold validate_step at 2.
  destruct (matching_head avail s Hs) as (m & rest & -> & _ & _).
  unfold add_valid. simpl.
  rewrite bool_decide_eq_false_2 by apply not_elem_of_empty.
  destruct (foldl_grows (validate_step avail) sel (validate_step_grows avail)
              ({[Py.lower m]} ∪ ∅, [m])) as [k ->].
  done.
Qed.

Lemma take_min_2 {A} (l : list A) : take (min 2 (length l)) l = take 2 l.
Proof. by destruct l as [|? [|? ?]]. Qed.

(** What stage 1 returns, by the reply to its call. *)
Lemma stage1_on_error nav summary gw n :
  (gw n (Stage1Request summary (l1_categories nav)) = ApiError
   ∨ gw n (Stage1Request summary (l1_categories nav)) = Returned NoContent) →
  (stage1_l1_selection nav summary gw n).1 = take 2 (l1_categories nav).
Proof.
  intros Hgw. unfold stage1_l1_selection.
  destruct (l1_categories nav) as [|l1 l1s]; [done|].
  unfold bind, call, ret.
  destruct Hgw as [-> | ->]; cbn [fst]; apply take_min_2.
Qed.

Lemma filter_inb_nil (l : list string) :
  List.filter (λ category, inb category []) l = [].
Proof. induction l as [|x l IH]; simpl; [done|]. by rewrite IH. Qed.

Lemma stage1_on_content nav summary gw n text :
  gw n (Stage1Request summary (l1_categories nav)) = Returned (Content text) →
  (stage1_l1_selection nav summary gw n).1
  = _validate_categories
      (take 2 (unique_categories
                 (List.filter (λ category, inb category (l1_categories nav))
                              (response_lines (Py.strip text)))))
      (l1_categories nav).
Proof.
  intros Hgw. unfold stage1_l1_selection.
  destruct (l1_categories nav) as [|l1 l1s].
  - by rewrite filter_inb_nil.
  - unfold bind, call, ret. by rewrite Hgw.
Qed.

Lemma validated_exact (l1s lines : list string) x :
  x ∈ List.filter (λ category, inb category l1s) lines ↔ x ∈ lines ∧ x ∈ l1s.
Proof.
  rewrite list_elem_of_In, filter_In, <- list_elem_of_In.
  unfold inb. by rewrite bool_decide_eq_true.
Qed.

End Stage1.

Section Stage1Results.

Lemma summary_one_call info gw n : (generate_product_summary info gw n).2 = S n.
Proof. done. Qed.

Lemma stage1_nonempty_on_exact_line nav summary gw n text line :
  gw n (Stage1Request summary (l1_categories nav)) = Returned (Content text) →
  line ∈ response_lines (Py.strip text) → line ∈ l1_categories nav →
  (stage1_l1_selection nav summary gw n).1 ≠ [].
Proof.
  intros Hgw Hline Hl1. rewrite (stage1_on_content _ _ _ _ _ Hgw).
  destruct (List.filter _ (response_lines (Py.strip text))) as [|x rest] eqn:E.
  - exfalso. assert (line ∈ List.filter (λ category, inb category (l1_categories nav))
                              (response_lines (Py.strip text))) as H
      by (by apply validated_exact).
    rewrite E in H. by apply elem_of_nil in H.
  - destruct (unique_categories_head x rest) as [k ->]. simpl.
    apply validate_categories_nonempty.
    assert (x ∈ List.filter (λ category, inb category (l1_categories nav))
                  (response_lines (Py.strip text))) as H
      by (rewrite E; apply list_elem_of_here).
    by apply validated_exact in H as [_ ?].
Qed.

Lemma stage1_empty_without_exact_line nav summary gw n text :
  gw n (Stage1Request summary (l1_categories nav)) = Returned (Content text) →
  List.filter (λ category, inb category (l1_categories nav))
              (response_lines (Py.strip text)) = [] →
  (stage1_l1_selection nav summary gw n).1 = [].
Proof. intros Hgw Hnone. by rewrite (stage1_on_content _ _ _ _ _ Hgw), Hnone. Qed.

End Stage1Results.

(** C2 (as amended).  Stage 1 falls back to the first 2 entries of the
    canonical L1 list, in file order, when its completion call raises
    or its response has no usable content.  It then returns a non-empty
    list whenever the taxonomy has at least one L1, and so it does when
    one line of the response is exactly an L1 name.  When the call
    succeeds and no line of the response is exactly an L1 name, there is
    no fallback: stage 1 returns the empty list and [navigate_taxonomy]
    returns the failure sentinel. *)
Theorem stage1_fallback_on_error_only :
  (∀ lines summary gw n,
     let nav := index_of_lines lines in
     gw n (Stage1Request summary (l1_categories nav)) = ApiError
     ∨ gw n (Stage1Request summary (l1_categories nav)) = Returned NoContent →
     (stage1_l1_selection nav summary gw n).1 = take 2 (l1_categories nav)
     ∧ (l1_categories nav ≠ [] → (stage1_l1_selection nav summary gw n).1 ≠ []))
  ∧ (∀ lines summary gw n text line,
       let nav := index_of_lines lines in
       gw n (Stage1Request summary (l1_categories nav)) = Returned (Content text) →
       inb line (response_lines (Py.strip text)) = true →
       inb line (l1_categories nav) = true →
       (stage1_l1_selection nav summary gw n).1 ≠ [])
  ∧ (∀ lines product_info gw text,
       let nav := index_of_lines lines in
       let summary := (generate_product_summary product_info gw 0%nat).1 in
       gw 1%nat (Stage1Request summary (l1_categories nav)) = Returned (Content text) →
       List.filter (λ category, inb category (l1_categories nav))
                   (response_lines (Py.strip text)) = [] →
       (stage1_l1_selection nav summary gw 1%nat).1 = []
       ∧ (navigate_taxonomy nav product_info gw 0%nat).1 = FAILURE).
Proof.
  split; [|split].
  - intros lines summary gw n nav Hgw. rewrite (stage1_on_error _ _ _ _ Hgw).
    split; [done|]. by destruct (l1_categories nav).
  - intros lines summary gw n text line nav Hgw Hline%bool_decide_eq_true
      Hl1%bool_decide_eq_true.
    by apply (stage1_nonempty_on_exact_line _ _ _ _ _ _ Hgw Hline).
  - intros lines info gw text nav summary Hgw Hnone.
    pose proof (stage1_empty_without_exact_line _ _ _ _ _ Hgw Hnone) as Hempty.
    split; [done|].
    unfold navigate_taxonomy, navigate_outcome, bind.
    pose proof (summary_one_call info gw 0%nat) as Hn. subst summary.
    destruct (generate_product_summary info gw 0%nat) as [s n1]. simpl in *. subst n1.
    destruct (stage1_l1_selection nav s gw 1%nat) as [l1s n2]. simpl in Hempty.
    by subst l1s.
Qed.

Lemma stage1_fallback_on_error_only_witness :
  let nav := index_of_lines sample_lines in
  (stage1_l1_selection nav "tv" (λ _ _, ApiError) 1%nat).1 = ["Electronics"; "Apparel"]
  ∧ (stage1_l1_selection nav "tv" (sample_gateway "Apparel" "1") 1%nat).1 ≠ []
  ∧ (stage1_l1_selection nav "tv" (sample_gateway "Furniture" "1") 1%nat).1 = []
  ∧ (navigate_taxonomy nav "tv" (sample_gateway "Furniture" "1") 0%nat).1 = FAILURE.
Proof.
  destruct stage1_fallback_on_error_only as (Herr & Hline & Hnone).
  split.
  { apply (Herr sample_lines "tv" (λ _ _, ApiError) 1%nat). by left. }
  split.
  { apply (Hline sample_lines "tv" (sample_gateway "Apparel" "1") 1%nat
             "Apparel" "Apparel"); reflexivity. }
  apply (Hnone sample_lines "tv" (sample_gateway "Furniture" "1") "Furniture");
    reflexivity.
Defined.

(** C2, counterexample.  The taxonomy has two top-level categories and
    the gateway answers the stage-1 call with a name that is none of
    them: stage 1 returns the empty list. *)
Lemma stage1_never_empty_counterexample : ¬ stage1_never_empty.
Proof.
  intros H.
  apply (H sample_lines "tv" (sample_gateway "Furniture" "1") 1%nat);
    [discriminate | reflexivity].
Qed.

(** C6 (as amended).  In stage 1, each line of the model's response is
    validated by exact membership in the canonical L1 list; a line that
    is not exactly an L1 name is counted as a hallucination and dropped,
    also when it equals a name up to case or contains one.  The matcher
    by case and by substring runs afterwards, on names of the list only:
    every category that stage 1 returns is in the canonical L1 list and
    equals, up to case, a response line that is exactly an L1 name. *)
Theorem stage1_returns_exact_names (lines : list string) (summary : string)
    (gw : Gateway) (n : nat) (c : string) :
  let nav := index_of_lines lines in
  c ∈ (stage1_l1_selection nav summary gw n).1 →
  c ∈ l1_categories nav
  ∧ ∀ text,
      gw n (Stage1Request summary (l1_categories nav)) = Returned (Content text) →
      ∃ line, line ∈ response_lines (Py.strip text)
              ∧ line ∈ l1_categories nav ∧ Py.lower c = Py.lower line.
Proof.
  intros nav.
  destruct (gw n (Stage1Request summary (l1_categories nav)))
    as [|[|text]] eqn:Hgw.
  - rewrite stage1_on_error by auto. intros Hc%subseteq_take. by split.
  - rewrite stage1_on_error by auto. intros Hc%subseteq_take. by split.
  - rewrite (stage1_on_content _ _ _ _ _ Hgw). intros Hc.
    apply validate_categories_exact in Hc as [Hc (s & Hs & Hl)].
    + split; [done|]. intros ? [= <-].
      apply subseteq_take, unique_categories_subset, validated_exact in Hs as [? ?].
      eauto.
    + intros s Hs.
      by apply subseteq_take, unique_categories_subset, validated_exact in Hs as [? ?].
Qed.

Lemma stage1_returns_exact_names_witness :
  let nav := index_of_lines sample_lines in
  let gw := sample_gateway "electronics
Apparel
Furniture" "1" in
  (stage1_l1_selection nav "tv" gw 1%nat).1 = ["Apparel"]
  ∧ "Apparel" ∈ l1_categories nav.
Proof.
  split; [reflexivity|].
  apply (stage1_returns_exact_names sample_lines "tv"
           (sample_gateway "electronics
Apparel
Furniture" "1") 1%nat "Apparel").
  apply (bool_decide_unpack _). vm_compute. exact I.
Defined.

(** C6, counterexample.  The only top-level category is [Electronics]
    and the response is the line [electronics]: it equals the category
    up to case, and stage 1 drops it. *)
Lemma stage1_up_to_case_counterexample : ¬ stage1_matches_up_to_case.
Proof.
  intros H.
  specialize (H ["# header"; "Electronics"] "tv" (sample_gateway "electronics" "1")
                1%nat "electronics" "electronics" "Electronics"
                eq_refl eq_refl).
  assert ("Electronics" ∈ @nil string) as Hin.
  { apply H; [|reflexivity]. apply (bool_decide_unpack _). vm_compute. exact I. }
  by apply elem_of_nil in Hin.
Qed.

(** ** The result of the pipeline *)

Section Result.

(** Where the pipeline can end: at one of the three stage failures or
    in the resolution of a chosen index. *)
Lemma navigate_outcome_cases nav info gw n :
  let o := (navigate_outcome nav info gw n).1 in
  o = Stage1Failed ∨ o = Stage2Failed ∨ o = Stage3Failed
  ∨ ∃ leaves idx, o = resolve nav leaves idx.
Proof.
  unfold navigate_outcome, bind.
  destruct (generate_product_summary info gw n) as [s n1].
  destruct (stage1_l1_selection nav s gw n1) as [[|l1 l1s] n2]; [by left|].
  destruct (leaf_selection nav s (l1 :: l1s) gw n2) as [[|x leaves] n3];
    [by right; left|].
  unfold final_selection, bind, ret.
  destruct (length (x :: leaves) =? 1)%nat; [right; right; right; eauto|].
  destruct (stage3_final_selection s (x :: leaves) gw n3) as [idx n4].
  destruct (idx <? 0); simpl; [by right; right; left|].
  right; right; right; eauto.
Qed.

Lemma resolve_resolved nav leaves idx full_paths :
  resolve nav leaves idx = Resolved full_paths →
  ∃ parts rest path,
    full_paths = parts :: rest
    ∧ path ∈ leaf_paths nav ∧ parts = Py.split SEP path.
Proof.
  unfold resolve. destruct (py_index leaves idx) as [leaf|]; [|done].
  destruct (full_paths_of nav leaf) as [|parts rest] eqn:E; [done|].
  intros [= <-].
  assert (parts ∈ full_paths_of nav leaf) as Hin
    by (rewrite E; apply list_elem_of_here).
  apply full_paths_of_elem in Hin as [_ (path & Hp & ->)].
  by exists (Py.split SEP path), rest, path.
Qed.

(** What [navigate_taxonomy] returns. *)
Lemma returned_shape nav o :
  (o = Stage1Failed ∨ o = Stage2Failed ∨ o = Stage3Failed
   ∨ ∃ leaves idx, o = resolve nav leaves idx) →
  ∃ p, returned o = ([p], 0)
       ∧ (p = ["False"]
          ∨ ∃ path, path ∈ leaf_paths nav ∧ p = Py.split SEP path).
Proof.
  intros [-> | [-> | [-> | (leaves & idx & ->)]]];
    try (exists ["False"]; by split; [|left]).
  destruct (resolve nav leaves idx) as [| | | | |fp] eqn:E;
    try (exists ["False"]; by split; [|left]).
  apply resolve_resolved in E as (parts & rest & path & -> & Hp & ->).
  exists (Py.split SEP path). split; [done|]. right. eauto.
Qed.

(** The chosen index is an index of the candidate list: the handler
    of line 927 is not reached. *)
Lemma in_range_index number max_options :
  in_range number max_options = true → 0 ≤ number - 1 < max_options.
Proof.
  unfold in_range. intros [?%Z.leb_le ?%Z.leb_le]%andb_true_iff. lia.
Qed.

Lemma first_number_index_bounds c max_options i :
  first_number_index c max_options = Some i → 0 ≤ i < max_options.
Proof.
  unfold first_number_index. destruct (Py.findall_digits c) as [|d ds]; [done|].
  destruct (in_range _ _) eqn:E; [|done]. intros [= <-]. by apply in_range_index.
Qed.

Lemma direct_number_index_bounds c max_options i :
  direct_number_index c max_options = Some i → 0 ≤ i < max_options.
Proof.
  unfold direct_number_index. destruct (Py.int c) as [z|]; [|done].
  destruct (in_range _ _) eqn:E; [|done]. intros [= <-]. by apply in_range_index.
Qed.

Lemma parse_bounds response max_options :
  1 ≤ max_options →
  let r := _parse_and_validate_number response max_options in
  r = -1 ∨ 0 ≤ r < max_options.
Proof.
  intros Hmax. destruct response as [|text]; simpl; [right; lia|].
  destruct (negb _); [by left|].
  destruct (first_number_index _ _) as [i|] eqn:E1.
  { right. by apply first_number_index_bounds in E1. }
  destruct (direct_number_index _ _) as [i|] eqn:E2.
  { right. by apply direct_number_index_bounds in E2. }
  destruct (inb _ _); [by left | right; lia].
Qed.

Lemma stage3_bounds summary leaves gw n :
  let r := (stage3_final_selection summary leaves gw n).1 in
  r = -1 ∨ 0 ≤ r < Z.of_nat (length leaves).
Proof.
  destruct leaves as [|x [|y rest]]; simpl; [by left | right; lia |].
  unfold bind, call, ret. destruct (gw n _) as [|response]; simpl; [by left|].
  pose proof (parse_bounds response (Z.of_nat (S (S (length rest))))) as H.
  simpl in H. destruct H as [-> | H]; [lia | by left |].
  destruct (0 <=? _) eqn:E; [by right | by left].
Qed.

Lemma py_index_in_range {A} (xs : list A) (i : Z) :
  0 ≤ i < Z.of_nat (length xs) → is_Some (py_index xs i).
Proof.
  intros Hi. unfold py_index.
  replace (0 <=? i) with true by (symmetry; apply Z.leb_le; lia).
  apply lookup_lt_is_Some. lia.
Qed.

Lemma never_critical nav info gw n :
  (navigate_outcome nav info gw n).1 ≠ CriticalError.
Proof.
  unfold navigate_outcome, bind.
  destruct (generate_product_summary info gw n) as [s n1].
  destruct (stage1_l1_selection nav s gw n1) as [[|l1 l1s] n2]; [done|].
  destruct (leaf_selection nav s (l1 :: l1s) gw n2) as [[|x leaves] n3]; [done|].
  assert (∀ idx, 0 ≤ idx < Z.of_nat (length (x :: leaves)) →
                 resolve nav (x :: leaves) idx ≠ CriticalError) as Hres.
  { intros idx Hidx. unfold resolve.
    destruct (py_index_in_range (x :: leaves) idx Hidx) as [leaf ->].
    by destruct (full_paths_of nav leaf). }
  unfold final_selection, bind, ret.
  destruct (length (x :: leaves) =? 1)%nat.
  { cbn [fst]. apply Hres. simpl. lia. }
  pose proof (stage3_bounds s (x :: leaves) gw n3) as Hb.
  destruct (stage3_final_selection s (x :: leaves) gw n3) as [idx n4].
  cbn [fst] in Hb. destruct (idx <? 0) eqn:E; cbn [fst]; [done|].
  apply Z.ltb_ge in E. apply Hres. lia.
Qed.

End Result.

(** C10.  For every taxonomy file, every product description and every
    behaviour of the gateway, failures of its calls included,
    [navigate_taxonomy] returns a pair whose second component is 0 and
    whose first component is a list of exactly one path: the sentinel
    path [["False"]] or the segments of one path of the taxonomy that is
    flagged as a leaf. *)
Theorem navigate_returns_one_path (lines : list string) (product_info : string)
    (gw : Gateway) :
  let nav := index_of_lines lines in
  ∃ p : list string,
    (navigate_taxonomy nav product_info gw 0%nat).1 = ([p], 0)
    ∧ (p = ["False"]
       ∨ ∃ (i : nat) (path : string),
           all_paths nav !! i = Some path ∧ leaf_markers nav !! i = Some true
           ∧ p = Py.split SEP path).
Proof.
  intros nav. unfold navigate_taxonomy, bind, ret.
  pose proof (navigate_outcome_cases nav product_info gw 0%nat) as Hcases.
  destruct (navigate_outcome nav product_info gw 0%nat) as [o n]. simpl in *.
  destruct (returned_shape nav o Hcases) as (p & Hp & Hshape).
  exists p. split; [done|].
  destruct Hshape as [-> | (path & Hin & ->)]; [by left|].
  right. apply elem_of_leaf_paths in Hin as (i & ? & ?). eauto.
Qed.

(** C3 (as amended).  When no leaf of the taxonomy is a top-level
    category whose name is the text [False], a request that ends at the
    successful [return] never yields the value of the failure sentinel. *)
Theorem sentinel_distinct_without_False_leaf (lines : list string)
    (product_info : string) (gw : Gateway) (full_paths : list (list string)) :
  inb "False" (leaf_paths (index_of_lines lines)) = false →
  (navigate_outcome (index_of_lines lines) product_info gw 0%nat).1
  = Resolved full_paths →
  returned (Resolved full_paths) ≠ FAILURE.
Proof.
  intros Hno%bool_decide_eq_false Hres.
  pose proof (navigate_outcome_cases (index_of_lines lines) product_info gw 0%nat)
    as Hcases.
  simpl in Hcases. rewrite Hres in Hcases.
  destruct Hcases as [? | [? | [? | (leaves & idx & Heq)]]]; [done..|].
  symmetry in Heq.
  apply resolve_resolved in Heq as (parts & rest & path & -> & Hp & ->).
  unfold returned, FAILURE. simpl. intros [= Hsplit].
  apply split_singleton in Hsplit. subst path. by apply Hno.
Qed.

Lemma sentinel_distinct_without_False_leaf_witness :
  let gw := sample_gateway "Electronics" "2" in
  (navigate_outcome (index_of_lines sample_lines) "laptop" gw 0%nat).1
  = Resolved [["Electronics"; "Computers"; "Laptops"]]
  ∧ returned (Resolved [["Electronics"; "Computers"; "Laptops"]]) ≠ FAILURE.
Proof.
  split; [reflexivity|].
  apply (sentinel_distinct_without_False_leaf sample_lines "laptop"
           (sample_gateway "Electronics" "2")); reflexivity.
Defined.

(** C3, counterexample.  The taxonomy has the single line [False], a
    legal top-level leaf.  The gateway selects it at every stage; the
    request ends at the successful [return], and what is returned is the
    failure sentinel. *)
Lemma sentinel_counterexample : ¬ sentinel_never_a_result.
Proof.
  intros H.
  apply (H ["# header"; "False"] "a product"
           (sample_gateway "False" "1") [["False"]]); reflexivity.
Qed.

(** * Properties of the functions that the claims leave out *)

(** ** More on the string primitives *)

Section MoreStrings.

Lemma lstrip_head s c t : Py.lstrip s = String c t → Py.is_space c = false.
Proof.
  induction s as [|a s IH]; simpl; [done|].
  destruct (Py.is_space a) eqn:E; [done|]. by intros [= <- <-].
Qed.

Lemma rstrip_head c t : Py.is_space c = false → Py.rstrip (String c t) = String c (Py.rstrip t).
Proof. intros H. simpl. by rewrite H, andb_false_r. Qed.

Lemma rstrip_idem s : Py.rstrip (Py.rstrip s) = Py.rstrip s.
Proof.
  induction s as [|c s IH]; simpl; [done|].
  destruct (negb (Py.truthy (Py.rstrip s)) && Py.is_space c) eqn:E; [done|].
  simpl. by rewrite IH, E.
Qed.

Lemma lstrip_fixed s :
  (∀ c t, s = String c t → Py.is_space c = false) → Py.lstrip s = s.
Proof.
  destruct s as [|c t]; [done|]. intros H. simpl. by rewrite (H c t eq_refl).
Qed.

(** Stripping twice is stripping once. *)
Lemma strip_idem s : Py.strip (Py.strip s) = Py.strip s.
Proof.
  unfold Py.strip. destruct (Py.lstrip s) as [|c t] eqn:E; [done|].
  pose proof (lstrip_head _ _ _ E) as Hc.
  rewrite (rstrip_head c t Hc).
  rewrite (lstrip_fixed (String c (Py.rstrip t))) by (by intros ? ? [= <- <-]).
  rewrite <- (rstrip_head c t Hc). apply rstrip_idem.
Qed.

Lemma py_join_cons sep p parts :
  parts ≠ [] → py_join sep (p :: parts) = p +:+ sep +:+ py_join sep parts.
Proof. by destruct parts. Qed.

(** [split_go] in the middle of a separator of which [sep_tail] is
    still to be passed over. *)
Lemma join_split_go sep s :
  Py.truthy sep = true →
  ∀ (sep_tail rest cur : string),
    s = sep_tail +:+ rest →
    py_join sep (Py.split_go sep (String.length sep_tail) cur s) = cur +:+ rest.
Proof.
  intros Hsep. induction s as [|c s IH]; intros sep_tail rest cur Hs.
  - destruct sep_tail; [|done]. rewrite app_empty_l in Hs. subst rest.
    simpl. by rewrite app_empty_r.
  - destruct sep_tail as [|d sep_tail].
    + rewrite app_empty_l in Hs. subst rest. simpl.
      destruct (Py.startswith sep (String c s)) eqn:E.
      * apply startswith_spec in E as [rest' Hrest].
        destruct sep as [|d sep']; [done|]. rewrite app_cons in Hrest.
        injection Hrest as <- ->.
        rewrite py_join_cons by apply split_go_nonempty.
        replace (String.length (String c sep') - 1)%nat with (String.length sep')
          by (simpl; lia).
        by rewrite (IH sep' rest' EmptyString eq_refl), app_empty_l.
      * pose proof (IH EmptyString s (cur +:+ String c EmptyString) eq_refl) as H.
        cbn [String.length] in H. by rewrite H, app_assoc_s.
    + rewrite app_cons in Hs. injection Hs as <- ->. cbn [String.length Py.split_go].
      by apply IH.
Qed.

(** Joining the pieces of a split gives the text back. *)
Lemma join_split sep s :
  Py.truthy sep = true → py_join sep (Py.split sep s) = s.
Proof.
  intros Hsep.
  pose proof (join_split_go sep s Hsep EmptyString s EmptyString eq_refl) as H.
  by cbn [String.length] in H.
Qed.

Lemma py_join_last sep parts :
  parts ≠ [] → ∃ pre, py_join sep parts = pre +:+ Py.last_part parts.
Proof.
  induction parts as [|p parts IH]; [done|]. intros _.
  destruct parts as [|q parts].
  - exists EmptyString. by rewrite app_empty_l.
  - destruct IH as [pre Hpre]; [done|].
    exists (p +:+ sep +:+ pre). rewrite py_join_cons by done.
    rewrite Hpre. unfold Py.last_part. simpl. by rewrite !app_assoc_s.
Qed.

Lemma rev_app_acc s acc : String.rev_app s acc = String.rev_app s EmptyString +:+ acc.
Proof.
  revert acc. induction s as [|c s IH]; intros acc; simpl; [done|].
  rewrite (IH (String c acc)), (IH (String c EmptyString)).
  by rewrite app_assoc_s.
Qed.

Lemma rev_app_app a b acc :
  String.rev_app (a +:+ b) acc = String.rev_app b (String.rev_app a acc).
Proof.
  revert acc. induction a as [|c a IH]; intros acc; [done|].
  rewrite app_cons. simpl. apply IH.
Qed.

Lemma endswith_app a p : Py.endswith p (a +:+ p) = true.
Proof.
  unfold Py.endswith, String.rev.
  rewrite rev_app_app, (rev_app_acc p (String.rev_app a EmptyString)).
  apply startswith_spec. by eexists.
Qed.

(** The last piece of a split ends the text. *)
Lemma endswith_last_part sep s :
  Py.truthy sep = true → Py.endswith (Py.last_part (Py.split sep s)) s = true.
Proof.
  intros Hsep. destruct (py_join_last sep (Py.split sep s)) as [pre Hpre];
    [apply split_nonempty|].
  rewrite (join_split sep s Hsep) in Hpre. rewrite Hpre at 2. apply endswith_app.
Qed.

End MoreStrings.

(** ** The index *)

Section MoreBuilder.

Lemma scan_lines_paths rest p :
  p ∈ (scan_lines rest).1 → ∃ raw, raw ∈ rest ∧ p = Py.strip raw ∧ Py.truthy p = true.
Proof.
  induction rest as [|raw later IH]; simpl; [by intros ?%elem_of_nil|].
  destruct (Py.truthy (Py.strip raw)) eqn:E; simpl.
  - destruct (scan_lines later) as [paths flags]; simpl in *.
    intros [-> | Hp]%elem_of_cons.
    + exists raw. split; [apply list_elem_of_here | done].
    + destruct (IH Hp) as (r & Hr & Hs). exists r.
      split; [by apply list_elem_of_further | done].
  - intros Hp. destruct (IH Hp) as (r & Hr & Hs). exists r.
    split; [by apply list_elem_of_further | done].
Qed.

(** The last path kept from the file has no line after it that could
    be its child. *)
Lemma scan_lines_last rest :
  (scan_lines rest).1 ≠ [] → last (scan_lines rest).2 = Some true.
Proof.
  induction rest as [|raw later IH]; simpl; [done|].
  destruct (Py.truthy (Py.strip raw)) eqn:E; simpl; [|apply IH].
  pose proof (child_among_paths (Py.strip raw) later) as Hc.
  pose proof (scan_lines_length later) as Hlen.
  destruct (scan_lines later) as [paths flags]; simpl in *. intros _.
  destruct paths as [|q paths].
  - destruct flags; [|done]. simpl in Hc. by rewrite Hc.
  - destruct flags as [|f flags]; [done|].
    rewrite last_cons. by rewrite (IH ltac:(done)).
Qed.

Lemma leaf_paths_last nav path :
  length (all_paths nav) = length (leaf_markers nav) →
  last (all_paths nav) = Some path → last (leaf_markers nav) = Some true →
  path ∈ leaf_paths nav.
Proof.
  intros Hlen Hp Hm. apply elem_of_leaf_paths.
  rewrite last_lookup in Hp. rewrite last_lookup in Hm.
  rewrite <- Hlen in Hm. eauto.
Qed.

(** The loop of lines 446-452 from any value of its list. *)
Lemma l1_fold_spec (paths acc : list string) :
  let step := λ (acc : list string) (full_path : string),
                let l1_category := Py.first_part (Py.split SEP full_path) in
                if inb l1_category acc then acc else acc ++ [l1_category] in
  (NoDup acc → NoDup (foldl step acc paths))
  ∧ ∀ x, x ∈ foldl step acc paths ↔
         x ∈ acc ∨ ∃ path, path ∈ paths ∧ Py.first_part (Py.split SEP path) = x.
Proof.
  intros step. revert acc. induction paths as [|p paths IH]; intros acc; simpl.
  - split; [done|]. intros x. split; [by left|].
    intros [?|(? & ?%elem_of_nil & _)]; done.
  - destruct (IH (step acc p)) as [IHn IHe]. split.
    + intros Hnd. apply IHn. unfold step. unfold inb. case_bool_decide; [done|].
      apply NoDup_app. split; [done|]. split; [|apply NoDup_singleton].
      by intros y Hy ->%list_elem_of_singleton.
    + intros x. rewrite IHe. unfold step at 1. unfold inb.
      case_bool_decide as Hin.
      * split.
        -- intros [?|(path & Hp & Hx)]; [by left|]. right. exists path.
           split; [by apply list_elem_of_further | done].
        -- intros [?|(path & [-> | Hp]%elem_of_cons & Hx)]; [by left| |].
           ++ left. by rewrite <- Hx.
           ++ right. eauto.
      * rewrite elem_of_app, list_elem_of_singleton. split.
        -- intros [[?| ->]|(path & Hp & Hx)]; [by left| |].
           ++ right. exists p. split; [apply list_elem_of_here | done].
           ++ right. exists path. split; [by apply list_elem_of_further | done].
        -- intros [?|(path & [-> | Hp]%elem_of_cons & Hx)]; [by left; left| |].
           ++ left. by right.
           ++ right. eauto.
Qed.

End MoreBuilder.

(** X1.  Invariants of the index that [_build_taxonomy_tree] makes:
    [all_paths] and [leaf_markers] have the same length, so that the
    idiom [leaf_markers[i]] is never out of range, and every stored path
    is a line of the file after the header, stripped, and not empty. *)
Theorem index_invariants (lines : list string) :
  let nav := index_of_lines lines in
  length (all_paths nav) = length (leaf_markers nav)
  ∧ ∀ p, p ∈ all_paths nav →
      Py.truthy p = true ∧ Py.strip p = p
      ∧ ∃ raw, raw ∈ drop 1 lines ∧ p = Py.strip raw.
Proof.
  intros nav. split; [apply index_lengths|].
  intros p Hp. subst nav. unfold index_of_lines in Hp.
  pose proof (scan_lines_paths (drop 1 lines) p) as H.
  destruct (scan_lines (drop 1 lines)) as [paths flags]; simpl in *.
  destruct (H Hp) as (raw & Hraw & -> & Ht).
  split; [done|]. split; [apply strip_idem|]. eauto.
Qed.

Lemma index_invariants_witness :
  all_paths (index_of_lines sample_lines) !! 2%nat
  = Some "Electronics > Cell Phones > Smartphones"
  ∧ Py.strip "Electronics > Cell Phones > Smartphones"
    = "Electronics > Cell Phones > Smartphones".
Proof.
  split; [reflexivity|].
  destruct (index_invariants sample_lines) as [_ H].
  apply (H "Electronics > Cell Phones > Smartphones").
  apply (bool_decide_unpack _). vm_compute. exact I.
Defined.

(** X2.  A taxonomy file with at least one path has at least one leaf:
    its last path is flagged as a leaf, whatever the file holds, and so
    the list of top-level categories offered in stage 1 is not empty. *)
Theorem last_path_is_leaf (lines : list string) :
  let nav := index_of_lines lines in
  all_paths nav ≠ [] →
  last (leaf_markers nav) = Some true
  ∧ (∃ path, last (all_paths nav) = Some path ∧ path ∈ leaf_paths nav)
  ∧ l1_categories nav ≠ [].
Proof.
  intros nav Hne.
  assert (last (leaf_markers nav) = Some true) as Hlast.
  { subst nav. unfold index_of_lines in *.
    pose proof (scan_lines_last (drop 1 lines)) as H.
    destruct (scan_lines (drop 1 lines)); simpl in *. by apply H. }
  destruct (last (all_paths nav)) as [path|] eqn:Hp;
    [|by apply last_None in Hp].
  assert (path ∈ leaf_paths nav) as Hin
    by (apply leaf_paths_last; [apply index_lengths | done..]).
  split; [done|]. split; [eauto|].
  intros Hnil.
  destruct (l1_fold_spec (leaf_paths nav) []) as [_ He].
  assert (Py.first_part (Py.split SEP path) ∈ l1_categories nav) as Hx.
  { unfold l1_categories. apply He. right. eauto. }
  rewrite Hnil in Hx. by apply elem_of_nil in Hx.
Qed.

Lemma last_path_is_leaf_witness :
  last (leaf_markers (index_of_lines ["# header"; "A > B"; "A"])) = Some true
  ∧ l1_categories (index_of_lines ["# header"; "A > B"; "A"]) ≠ [].
Proof.
  destruct (last_path_is_leaf ["# header"; "A > B"; "A"]) as (H1 & _ & H3);
    [discriminate|].
  by split.
Defined.

(** X3.  The list of top-level categories that stage 1 offers holds no
    name twice, and holds exactly the first segments of the paths
    flagged as leaves. *)
Theorem l1_categories_spec (lines : list string) :
  let nav := index_of_lines lines in
  NoDup (l1_categories nav)
  ∧ ∀ x, x ∈ l1_categories nav ↔
         ∃ path, path ∈ leaf_paths nav ∧ Py.first_part (Py.split SEP path) = x.
Proof.
  intros nav. destruct (l1_fold_spec (leaf_paths nav) []) as [Hn He].
  split; [apply Hn; constructor|].
  intros x. unfold l1_categories. rewrite He. split; [|by right].
  by intros [?%elem_of_nil|?].
Qed.

Lemma l1_categories_spec_witness :
  l1_categories (index_of_lines sample_lines) = ["Electronics"; "Apparel"]
  ∧ ∃ path, path ∈ leaf_paths (index_of_lines sample_lines)
            ∧ Py.first_part (Py.split SEP path) = "Apparel".
Proof.
  split; [reflexivity|].
  destruct (l1_categories_spec sample_lines) as [_ H].
  apply (H "Apparel"). apply (bool_decide_unpack _). vm_compute. exact I.
Defined.

(** ** Stage 2: candidates, batches and calls *)

Section MoreStage2.

Lemma filtered_leaves_spec nav l1s excluded x :
  x ∈ filtered_leaves nav l1s excluded ↔
  ∃ path, path ∈ leaf_paths nav
          ∧ Py.last_part (Py.split SEP path) = x
          ∧ Py.first_part (Py.split SEP path) ∈ l1s ∧ x ∉ excluded.
Proof.
  unfold filtered_leaves. rewrite list_elem_of_omap. unfold inb. split.
  - intros (path & Hp & Hf). exists path.
    case_bool_decide as H1; simpl in Hf; [|done].
    case_bool_decide as H2; simpl in Hf; [done|].
    injection Hf as <-. done.
  - intros (path & Hp & <- & H1 & H2). exists path. split; [done|].
    by rewrite (bool_decide_eq_true_2 _ H1), (bool_decide_eq_false_2 _ H2).
Qed.

Lemma ceil_div_covers (n : nat) : (n ≤ (n + batch_size - 1) / batch_size * batch_size)%nat.
Proof.
  unfold batch_size.
  pose proof (Nat.div_mod_eq (n + 100 - 1) 100).
  pose proof (Nat.mod_upper_bound (n + 100 - 1) 100). lia.
Qed.

Lemma ceil_div_tight (n k : nat) :
  (k < (n + batch_size - 1) / batch_size → k * batch_size < n)%nat.
Proof.
  unfold batch_size. intros Hk.
  pose proof (Nat.div_mod_eq (n + 100 - 1) 100).
  pose proof (Nat.mod_upper_bound (n + 100 - 1) 100). nia.
Qed.

(** The slice of line 636 is the next [batch_size] leaves. *)
Lemma batch_leaves_at_take (filtered : list string) (start : nat) :
  batch_leaves_at filtered start = take batch_size (drop start filtered).
Proof.
  unfold batch_leaves_at.
  destruct (decide (start + batch_size ≤ length filtered)%nat) as [Hle|Hgt].
  - f_equal. lia.
  - rewrite !take_ge; [done|rewrite length_drop; lia..].
Qed.

Lemma chunks_join {A} (l : list A) (b c : nat) :
  mjoin ((λ k, take b (drop (k * b) l)) <$> seq 0 c) = take (c * b) l.
Proof.
  induction c as [|c IH]; [done|].
  rewrite seq_S, fmap_app, join_app, IH. simpl.
  rewrite app_nil_r, take_take_drop. f_equal. lia.
Qed.

Lemma batches_as_chunks (filtered : list string) :
  batch_leaves_at filtered <$> batch_starts (length filtered)
  = (λ k, take batch_size (drop (k * batch_size) filtered))
      <$> seq 0 ((length filtered + batch_size - 1) / batch_size).
Proof.
  unfold batch_starts. rewrite <- list_fmap_compose. apply list_fmap_ext.
  intros i k _. simpl. apply batch_leaves_at_take.
Qed.

Lemma batch_nonempty (filtered : list string) (start : nat) :
  start ∈ batch_starts (length filtered) →
  (1 ≤ length (batch_leaves_at filtered start) ≤ batch_size)%nat.
Proof.
  unfold batch_starts. intros (k & -> & Hk)%list_elem_of_fmap.
  apply elem_of_seq in Hk as [_ Hk]. apply ceil_div_tight in Hk.
  rewrite batch_leaves_at_take, length_take, length_drop.
  unfold batch_size in *. lia.
Qed.

(** What a turn of the batch loop returns, by its reply. *)
Lemma process_batch_calls summary leaf_to_l1 filtered start gw n :
  batch_leaves_at filtered start ≠ [] →
  (process_batch summary leaf_to_l1 filtered start gw n).2 = S n.
Proof.
  unfold process_batch. fold (batch_leaves_at filtered start).
  destruct (batch_leaves_at filtered start); [done|]. intros _.
  unfold bind, call, ret. by destruct (gw n _) as [|[|?]].
Qed.

Lemma for_each_batch_calls (body : nat → M (list string)) starts gw n :
  (∀ start gw n, start ∈ starts → (body start gw n).2 = S n) →
  (for_each_batch body starts gw n).2 = (n + length starts)%nat.
Proof.
  revert n. induction starts as [|s starts IH]; intros n Hbody; simpl; [lia|].
  unfold bind, ret.
  pose proof (Hbody s gw n (list_elem_of_here _ _)) as H1.
  destruct (body s gw n) as [sel n1]. simpl in H1. subst n1.
  pose proof (IH (S n)) as H2.
  destruct (for_each_batch body starts gw (S n)) as [more n2]. simpl in *.
  rewrite H2; [lia|]. intros. apply Hbody. by apply list_elem_of_further.
Qed.

Lemma helper_calls_eq nav summary l1s excluded gw n :
  (_leaf_selection_helper nav summary l1s excluded gw n).2
  = (all_selected_numbers nav summary l1s excluded gw n).2.
Proof. by rewrite leaf_selection_helper_eq. Qed.


End MoreStage2.

(** X4.  Batch splitting in stage 2 is a partition of the candidate
    list: the batches, taken in order, concatenate to the list, so every
    candidate is in exactly one batch at its place, and every batch holds
    between 1 and 100 candidates. *)
Theorem batches_partition (filtered : list string) :
  let batches := batch_leaves_at filtered <$> batch_starts (length filtered) in
  mjoin batches = filtered
  ∧ Forall (λ batch, (1 ≤ length batch ≤ batch_size)%nat) batches
  ∧ length batches = ((length filtered + batch_size - 1) / batch_size)%nat.
Proof.
  intros batches. split; [|split].
  - subst batches. rewrite batches_as_chunks, chunks_join.
    apply take_ge, ceil_div_covers.
  - subst batches. apply Forall_fmap, Forall_forall.
    intros start Hstart. by apply batch_nonempty.
  - subst batches. unfold batch_starts. by rewrite !length_fmap, length_seq.
Qed.

(** X5.  A branch of stage 2 calls the gateway exactly once per batch,
    that is ceil(len/100) times for len candidates, whatever the
    replies: a batch whose call fails is skipped and the following
    batches are still sent. *)
Theorem helper_calls_once_per_batch (lines : list string) (summary : string)
    (selected_l1s excluded_leaves : list string) (gw : Gateway) (n : nat) :
  let nav := index_of_lines lines in
  let filtered := filtered_leaves nav selected_l1s excluded_leaves in
  (_leaf_selection_helper nav summary selected_l1s excluded_leaves gw n).2
  = (n + (length filtered + batch_size - 1) / batch_size)%nat.
Proof.
  intros nav filtered. rewrite helper_calls_eq. unfold all_selected_numbers.
  fold filtered. rewrite for_each_batch_calls.
  - unfold batch_starts. by rewrite length_fmap, length_seq.
  - intros start gw' n' Hstart. apply process_batch_calls.
    apply batch_nonempty in Hstart. intros Hnil. rewrite Hnil in Hstart.
    simpl in Hstart. lia.
Qed.



(** X7.  Stage 2 cannot return a name that is not in the taxonomy: every
    leaf that branch 2A returns is the last segment of a path flagged as
    a leaf whose first segment is the first selected L1; every leaf that
    branch 2B returns is such a leaf of the second selected L1 and is
    none of the excluded leaves. *)
Theorem stage2_returns_leaves_of_branch (lines : list string) (summary : string)
    (selected_l1s excluded_leaves : list string) (gw : Gateway) (n : nat)
    (x : string) :
  let nav := index_of_lines lines in
  (x ∈ (stage2a_first_leaf_selection nav summary selected_l1s gw n).1 →
   ∃ first path,
     selected_l1s !! 0%nat = Some first ∧ path ∈ leaf_paths nav
     ∧ Py.last_part (Py.split SEP path) = x
     ∧ Py.first_part (Py.split SEP path) = first)
  ∧ (x ∈ (stage2b_second_leaf_selection nav summary selected_l1s
            excluded_leaves gw n).1 →
     ∃ second path,
       selected_l1s !! 1%nat = Some second ∧ path ∈ leaf_paths nav
       ∧ Py.last_part (Py.split SEP path) = x
       ∧ Py.first_part (Py.split SEP path) = second
       ∧ x ∉ excluded_leaves).
Proof.
  intros nav. split.
  - rewrite stage2a_eq. cbn [fst]. rewrite first_seen_elem.
    destruct selected_l1s as [|first rest]; simpl; [by intros ?%elem_of_nil|].
    intros Hx%all_selected_numbers_elem.
    apply filtered_leaves_spec in Hx as (path & Hp & Hl & Hf & _).
    apply list_elem_of_singleton in Hf. by exists first, path.
  - rewrite stage2b_eq. cbn [fst]. rewrite first_seen_elem.
    destruct selected_l1s as [|first [|second rest]]; simpl;
      [by intros ?%elem_of_nil..|].
    intros Hx%all_selected_numbers_elem.
    apply filtered_leaves_spec in Hx as (path & Hp & Hl & Hf & Hex).
    apply list_elem_of_singleton in Hf. by exists second, path.
Qed.

Lemma stage2_returns_leaves_of_branch_witness :
  let gw := sample_gateway "Electronics" "1" in
  (stage2a_first_leaf_selection (index_of_lines sample_lines) "tv"
     ["Electronics"; "Apparel"] gw 2%nat).1 = ["Smartphones"; "Laptops"]
  ∧ ∃ first path,
      ["Electronics"; "Apparel"] !! 0%nat = Some first
      ∧ path ∈ leaf_paths (index_of_lines sample_lines)
      ∧ Py.last_part (Py.split SEP path) = "Laptops"
      ∧ Py.first_part (Py.split SEP path) = first.
Proof.
  split; [vm_compute; reflexivity|].
  destruct (stage2_returns_leaves_of_branch sample_lines "tv"
              ["Electronics"; "Apparel"] [] (sample_gateway "Electronics" "1")
              2%nat "Laptops") as [H _].
  apply H. apply (bool_decide_unpack _). vm_compute. exact I.
Defined.

(** ** Validation of names *)

Section MoreValidation.

Lemma validate_step_name avail st selected :
  validate_step avail st selected = unique_step_lower st (validated_name avail selected).
Proof.
  unfold validate_step, validated_name, add_valid, unique_step_lower.
  destruct (List.filter _ avail); [|done]. by destruct (List.find _ avail).
Qed.

(** [_validate_categories] records one name per selection and removes
    the duplicates up to case. *)
Lemma validate_categories_unique sel avail :
  _validate_categories sel avail = unique_categories (validated_name avail <$> sel).
Proof.
  unfold _validate_categories, unique_categories.
  generalize (∅ : gset string, [] : list string).
  induction sel as [|s sel IH]; intros st; simpl; [done|].
  by rewrite validate_step_name, IH.
Qed.

(** The loop of lines 507-513 from any state in which [seen] holds the
    lower-case forms of [out]. *)
Lemma unique_lower_fold (seen : gset string) (out xs : list string) :
  (∀ x, x ∈ seen ↔ x ∈ Py.lower <$> out) → NoDup (Py.lower <$> out) →
  let r := (foldl unique_step_lower (seen, out) xs).2 in
  NoDup (Py.lower <$> r)
  ∧ (length r ≤ length out + length xs)%nat
  ∧ (∀ x, x ∈ out ∨ x ∈ xs → Py.lower x ∈ Py.lower <$> r)
  ∧ (∀ c, c ∈ r → c ∈ out ∨ c ∈ xs).
Proof.
  revert seen out. induction xs as [|x xs IH]; intros seen out Hseen Hnd; simpl.
  - split; [done|]. split; [lia|]. split.
    + intros y [Hy|Hy%elem_of_nil]; [|done]. by apply list_elem_of_fmap_2.
    + intros c Hc. by left.
  - destruct (decide (Py.lower x ∈ seen)) as [Hx|Hx].
    + assert (unique_step_lower (seen, out) x = (seen, out)) as ->
        by (unfold unique_step_lower; simpl; by rewrite bool_decide_eq_true_2).
      destruct (IH seen out Hseen Hnd) as (H1 & H2 & H3 & H4).
      split; [done|]. split; [lia|]. split.
      * intros y [Hy|[-> |Hy]%elem_of_cons]; [apply H3; by left| |apply H3; by right].
        apply Hseen, list_elem_of_fmap in Hx as (z & Hz & Hzo).
        rewrite Hz. apply H3. by left.
      * intros c Hc. destruct (H4 c Hc) as [?|?]; [by left|].
        right. by apply list_elem_of_further.
    + assert (unique_step_lower (seen, out) x
              = ({[Py.lower x]} ∪ seen, out ++ [x])) as ->
        by (unfold unique_step_lower; simpl; by rewrite bool_decide_eq_false_2).
      destruct (IH ({[Py.lower x]} ∪ seen) (out ++ [x])) as (H1 & H2 & H3 & H4).
      * intros y. rewrite elem_of_union, elem_of_singleton, fmap_app, elem_of_app.
        simpl. rewrite list_elem_of_singleton, Hseen. tauto.
      * rewrite fmap_app. apply NoDup_app. split; [done|].
        split; [|apply NoDup_singleton].
        intros y Hy ->%list_elem_of_singleton. by apply Hx, Hseen.
      * split; [done|]. rewrite length_app in H2. simpl in H2.
        split; [lia|]. split.
        -- intros y [Hy|[-> |Hy]%elem_of_cons]; apply H3.
           ++ left. apply elem_of_app. by left.
           ++ left. apply elem_of_app. right. apply list_elem_of_here.
           ++ by right.
        -- intros c Hc. destruct (H4 c Hc) as [[?| ->%list_elem_of_singleton]%elem_of_app|?].
           ++ by left.
           ++ right. apply list_elem_of_here.
           ++ right. by apply list_elem_of_further.
Qed.

Lemma unique_categories_spec xs :
  NoDup (Py.lower <$> unique_categories xs)
  ∧ (length (unique_categories xs) ≤ length xs)%nat
  ∧ (∀ x, x ∈ xs → Py.lower x ∈ Py.lower <$> unique_categories xs)
  ∧ (∀ c, c ∈ unique_categories xs → c ∈ xs).
Proof.
  destruct (unique_lower_fold ∅ [] xs) as (H1 & H2 & H3 & H4).
  - intros x. simpl. rewrite elem_of_empty. split; [done|]. apply not_elem_of_nil.
  - constructor.
  - split; [done|]. split; [done|]. split.
    + intros x Hx. apply H3. by right.
    + intros c Hc. by destruct (H4 c Hc) as [?%elem_of_nil|?].
Qed.

Lemma NoDup_lower (l : list string) : NoDup (Py.lower <$> l) → NoDup l.
Proof. apply NoDup_fmap_1. Qed.

Lemma validated_name_cases avail s :
  (validated_name avail s ∈ avail
   ∧ (Py.lower (validated_name avail s) = Py.lower s
      ∨ partial_match s (validated_name avail s) = true))
  ∨ (validated_name avail s = s
     ∧ ∀ c, c ∈ avail → Py.lower c ≠ Py.lower s ∧ partial_match s c = false).
Proof.
  unfold validated_name.
  destruct (List.filter _ avail) as [|m rest] eqn:Ef.
  - destruct (List.find (partial_match s) avail) as [c|] eqn:Efind.
    + left. apply find_some in Efind as [Hin Hm].
      split; [by apply list_elem_of_In | by right].
    + right. split; [done|]. intros c Hc%list_elem_of_In. split.
      * intros Heq.
        assert (In c (List.filter
                  (λ c, bool_decide (Py.lower c = Py.lower s)) avail)) as H
          by (apply filter_In; split; [done | by apply bool_decide_eq_true]).
        by rewrite Ef in H.
      * by apply (find_none _ _ Efind).
  - left.
    assert (In m (List.filter (λ c, bool_decide (Py.lower c = Py.lower s)) avail)) as H
      by (rewrite Ef; by left).
    apply filter_In in H as [H1 H2%bool_decide_eq_true].
    split; [by apply list_elem_of_In | by left].
Qed.

End MoreValidation.

(** X8.  [_validate_categories] returns no two names equal up to case
    and at most one name per selection.  A returned name is either an
    available name that matches a selection (up to case, or by
    containment) or a selection that matches no available name: such a
    selection is logged and kept, not dropped. *)
Theorem validate_categories_spec (selected_categories available_categories : list string) :
  let result := _validate_categories selected_categories available_categories in
  NoDup (Py.lower <$> result)
  ∧ (length result ≤ length selected_categories)%nat
  ∧ (∀ c, c ∈ result →
       ∃ s, s ∈ selected_categories
            ∧ ((c ∈ available_categories
                ∧ (Py.lower c = Py.lower s ∨ partial_match s c = true))
               ∨ (c = s ∧ ∀ a, a ∈ available_categories →
                           Py.lower a ≠ Py.lower s ∧ partial_match s a = false)))
  ∧ (∀ s, s ∈ selected_categories →
       (∀ a, a ∈ available_categories →
             Py.lower a ≠ Py.lower s ∧ partial_match s a = false) →
       Py.lower s ∈ Py.lower <$> result).
Proof.
  intros result. subst result. rewrite validate_categories_unique.
  destruct (unique_categories_spec (validated_name available_categories
                                      <$> selected_categories))
    as (H1 & H2 & H3 & H4).
  split; [done|]. split; [by rewrite length_fmap in H2|]. split.
  - intros c Hc. apply H4, list_elem_of_fmap in Hc as (s & -> & Hs).
    exists s. split; [done|].
    destruct (validated_name_cases available_categories s) as [[? ?]|[? ?]]; auto.
  - intros s Hs Hnone.
    destruct (validated_name_cases available_categories s) as [[Hin Hm]|[Heq _]].
    + destruct (Hnone _ Hin) as [Hne Hp]. destruct Hm as [?|Hm]; [done|].
      by rewrite Hp in Hm.
    + rewrite <- Heq at 1. apply H3. by apply list_elem_of_fmap_2.
Qed.

Lemma validate_categories_spec_witness :
  _validate_categories ["electronics"; "Shoe"; "zzz"; "ELECTRONICS"] ["Electronics"; "Shoes"]
  = ["Electronics"; "Shoes"; "zzz"]
  ∧ Py.lower "zzz" ∈ Py.lower <$> _validate_categories
      ["electronics"; "Shoe"; "zzz"; "ELECTRONICS"] ["Electronics"; "Shoes"].
Proof.
  split; [reflexivity|].
  destruct (validate_categories_spec ["electronics"; "Shoe"; "zzz"; "ELECTRONICS"]
              ["Electronics"; "Shoes"]) as (_ & _ & _ & H).
  apply (H "zzz").
  - apply (bool_decide_unpack _). vm_compute. exact I.
  - intros a Ha. repeat (apply elem_of_cons in Ha as [-> | Ha]; [by split|]).
    by apply elem_of_nil in Ha.
Defined.

Section MoreStage1.

Lemma contains_empty s : Py.contains EmptyString s = true.
Proof. by destruct s. Qed.

Lemma stage1_calls nav summary gw n :
  (stage1_l1_selection nav summary gw n).2
  = if bool_decide (l1_categories nav = []) then n else S n.
Proof.
  unfold stage1_l1_selection. destruct (l1_categories nav) as [|l1 l1s]; [done|].
  unfold bind, call, ret. by destruct (gw n _) as [|[|?]].
Qed.

End MoreStage1.

(** X9.  Stage 1 returns at most 2 categories, all distinct, whatever
    the gateway answers, so that stage 2 runs one or two branches.  It
    calls the gateway once, and not at all when the taxonomy has no
    top-level category. *)
Theorem stage1_at_most_two (lines : list string) (summary : string)
    (gw : Gateway) (n : nat) :
  let nav := index_of_lines lines in
  let r := stage1_l1_selection nav summary gw n in
  (length r.1 ≤ 2)%nat ∧ NoDup r.1
  ∧ r.2 = (if bool_decide (l1_categories nav = []) then n else S n)
  ∧ (l1_categories nav = [] → r.1 = []).
Proof.
  intros nav r. subst r.
  assert (NoDup (l1_categories nav)) as Hnd.
  { destruct (l1_fold_spec (leaf_paths nav) []) as [H _]. apply H. constructor. }
  split; [|split; [|split]].
  - destruct (gw n (Stage1Request summary (l1_categories nav)))
      as [|[|text]] eqn:Hgw.
    + rewrite stage1_on_error by auto. rewrite length_take. lia.
    + rewrite stage1_on_error by auto. rewrite length_take. lia.
    + rewrite (stage1_on_content _ _ _ _ _ Hgw), validate_categories_unique.
      destruct (unique_categories_spec
                  (validated_name (l1_categories nav)
                     <$> take 2 (unique_categories
                                   (List.filter (λ category, inb category (l1_categories nav))
                                      (response_lines (Py.strip text))))))
        as (_ & H & _).
      rewrite length_fmap, length_take in H. lia.
  - destruct (gw n (Stage1Request summary (l1_categories nav)))
      as [|[|text]] eqn:Hgw.
    + rewrite stage1_on_error by auto. eapply sublist_NoDup; [done | apply sublist_take].
    + rewrite stage1_on_error by auto. eapply sublist_NoDup; [done | apply sublist_take].
    + rewrite (stage1_on_content _ _ _ _ _ Hgw), validate_categories_unique.
      apply NoDup_lower, unique_categories_spec.
  - apply stage1_calls.
  - intros Hnil. unfold stage1_l1_selection. by rewrite Hnil.
Qed.

Lemma stage1_at_most_two_witness :
  (stage1_l1_selection (index_of_lines ["# header"]) "tv"
     (sample_gateway "Electronics" "1") 1%nat) = ([], 1%nat).
Proof.
  destruct (stage1_at_most_two ["# header"] "tv" (sample_gateway "Electronics" "1") 1%nat)
    as (_ & _ & H2 & H1).
  destruct (stage1_l1_selection _ _ _ _) as [r k]. simpl in *.
  by rewrite H1, H2.
Defined.

(** X10.  [_validate_category] returns -1 exactly when no available
    name equals the selection up to case, contains it or is contained in
    it.  Otherwise it returns a valid index: that of the first name equal
    up to case if there is one, else that of the first name matching by
    containment.  The empty selection is contained in every name, so it
    is never rejected when a name is available. *)
Theorem validate_category_spec (selected_category : string)
    (available_categories : list string) :
  let r := _validate_category selected_category available_categories in
  ((r = -1
    ∧ ∀ c, c ∈ available_categories →
           Py.lower c ≠ Py.lower selected_category
           ∧ partial_match selected_category c = false)
   ∨ (∃ (i : nat) c,
        r = Z.of_nat i ∧ available_categories !! i = Some c
        ∧ Py.lower c = Py.lower selected_category
        ∧ ∀ (j : nat) d, available_categories !! j = Some d → (j < i)%nat →
                 Py.lower d ≠ Py.lower selected_category)
   ∨ (∃ (i : nat) c,
        r = Z.of_nat i ∧ available_categories !! i = Some c
        ∧ partial_match selected_category c = true
        ∧ (∀ d, d ∈ available_categories → Py.lower d ≠ Py.lower selected_category)
        ∧ ∀ (j : nat) d, available_categories !! j = Some d → (j < i)%nat →
                 partial_match selected_category d = false))
  ∧ (∀ c rest, 0 ≤ _validate_category EmptyString (c :: rest)).
Proof.
  intros r. split.
  - subst r. unfold _validate_category.
    destruct (list_find (λ category, Py.lower category = Py.lower selected_category)
                available_categories) as [[i c]|] eqn:E1.
    + right; left. apply list_find_Some in E1 as (Hi & Hc & Hfirst).
      exists i, c. eauto.
    + apply list_find_None in E1. rewrite Forall_forall in E1.
      destruct (list_find (λ category, partial_match selected_category category = true)
                  available_categories) as [[i c]|] eqn:E2.
      * right; right. apply list_find_Some in E2 as (Hi & Hc & Hfirst).
        exists i, c. repeat split; [done..|].
        intros j d Hj Hlt. by apply not_true_is_false, (Hfirst j d).
      * left. apply list_find_None in E2. rewrite Forall_forall in E2.
        split; [done|]. intros c Hc. split; [by apply E1|].
        by apply not_true_is_false, E2.
  - intros c rest. unfold _validate_category.
    destruct (list_find _ (c :: rest)) as [[i ?]|]; [lia|].
    destruct (list_find (λ category, partial_match EmptyString category = true)
                (c :: rest)) as [[i ?]|] eqn:E; [lia|].
    apply list_find_None in E. apply Forall_cons in E as [E _].
    exfalso. apply E. unfold partial_match. by rewrite contains_empty, orb_true_r.
Qed.

Example validate_category_sample :
  _validate_category "shoes" ["Shoe Care"; "Shoes"] = 1
  ∧ _validate_category "Shoe" ["Shoe Care"; "Shoes"] = 0
  ∧ _validate_category "Hats" ["Shoe Care"; "Shoes"] = -1.
Proof. repeat split; reflexivity. Qed.

(** ** Stage 3 and the resolution *)

Section MoreResult.

Lemma SEP_truthy : Py.truthy SEP = true.
Proof. done. Qed.

(** The segments of a leaf path are found under its leaf name. *)
Lemma full_paths_of_leaf_name nav path :
  path ∈ leaf_paths nav →
  Py.split SEP path ∈ full_paths_of nav (Py.last_part (Py.split SEP path)).
Proof.
  intros Hp. unfold full_paths_of. apply list_elem_of_omap. exists path.
  split; [done|]. rewrite (endswith_last_part SEP path SEP_truthy).
  by rewrite bool_decide_eq_true_2.
Qed.

Lemma leaf_selection_elem nav summary l1s gw n x :
  x ∈ (leaf_selection nav summary l1s gw n).1 →
  ∃ path, path ∈ leaf_paths nav ∧ Py.last_part (Py.split SEP path) = x.
Proof.
  unfold leaf_selection, bind.
  pose proof (stage2a_eq nav summary l1s gw n) as Ha.
  destruct (stage2a_first_leaf_selection nav summary l1s gw n) as [la na].
  rewrite stage2b_guard.
  pose proof (stage2b_eq nav summary l1s la gw na) as Hb.
  destruct (stage2b_second_leaf_selection nav summary l1s la gw na) as [lb nb].
  cbn [fst ret]. injection Ha as -> _. injection Hb as -> _.
  intros [Hx|Hx]%elem_of_app; rewrite first_seen_elem in Hx.
  - destruct l1s as [|first rest]; simpl in Hx; [by apply elem_of_nil in Hx|].
    apply all_selected_numbers_elem, filtered_leaves_spec in Hx
      as (path & ? & ? & _). eauto.
  - destruct l1s as [|first [|second rest]]; simpl in Hx;
      [by apply elem_of_nil in Hx..|].
    apply all_selected_numbers_elem, filtered_leaves_spec in Hx
      as (path & ? & ? & _). eauto.
Qed.

Lemma resolve_candidate nav leaves idx :
  (∀ x, x ∈ leaves → ∃ path, path ∈ leaf_paths nav
                            ∧ Py.last_part (Py.split SEP path) = x) →
  0 ≤ idx < Z.of_nat (length leaves) →
  ∃ leaf parts rest,
    leaves !! Z.to_nat idx = Some leaf
    ∧ resolve nav leaves idx = Resolved (parts :: rest)
    ∧ Py.last_part parts = leaf
    ∧ ∃ path, path ∈ leaf_paths nav ∧ parts = Py.split SEP path.
Proof.
  intros Hleaves Hidx. unfold resolve.
  destruct (py_index_in_range leaves idx Hidx) as [leaf Hleaf]. rewrite Hleaf.
  unfold py_index in Hleaf.
  replace (0 <=? idx) with true in Hleaf by (symmetry; apply Z.leb_le; lia).
  destruct (Hleaves leaf) as (path & Hp & Hl);
    [apply list_elem_of_lookup; eauto|].
  pose proof (full_paths_of_leaf_name nav path Hp) as Hin. rewrite Hl in Hin.
  destruct (full_paths_of nav leaf) as [|parts rest] eqn:E;
    [by apply elem_of_nil in Hin|].
  assert (parts ∈ full_paths_of nav leaf) as Hparts
    by (rewrite E; apply list_elem_of_here).
  apply full_paths_of_elem in Hparts as [Hlast Hpath].
  by exists leaf, parts, rest.
Qed.

End MoreResult.

(** X11.  Stage 3 returns -1 or an index of the candidate list, never
    an index out of bounds.  With no candidate it returns -1 and with one
    candidate it returns 0, in both cases without calling the gateway;
    with two or more candidates it calls the gateway exactly once. *)
Theorem stage3_index_and_calls (summary : string) (selected_leaves : list string)
    (gw : Gateway) (n : nat) :
  let r := stage3_final_selection summary selected_leaves gw n in
  (r.1 = -1 ∨ 0 ≤ r.1 < Z.of_nat (length selected_leaves))
  ∧ (selected_leaves = [] → r = (-1, n))
  ∧ (length selected_leaves = 1%nat → r = (0, n))
  ∧ ((2 ≤ length selected_leaves)%nat → r.2 = S n).
Proof.
  intros r. subst r. split; [apply stage3_bounds|].
  split; [by intros ->|]. split.
  - intros Hlen. by destruct selected_leaves as [|x [|y rest]].
  - intros Hlen. destruct selected_leaves as [|x [|y rest]]; simpl in Hlen; [lia..|].
    unfold stage3_final_selection, bind, call, ret. by destruct (gw n _).
Qed.

Lemma stage3_index_and_calls_witness :
  stage3_final_selection "tv" [] (λ _ _, ApiError) 4%nat = (-1, 4%nat)
  ∧ stage3_final_selection "tv" ["Televisions"] (λ _ _, ApiError) 4%nat = (0, 4%nat)
  ∧ (stage3_final_selection "tv" ["Televisions"; "Monitors"] (λ _ _, ApiError) 4%nat).2
    = 5%nat.
Proof.
  split; [|split].
  - by apply (stage3_index_and_calls "tv" [] (λ _ _, ApiError) 4%nat).
  - by apply (stage3_index_and_calls "tv" ["Televisions"] (λ _ _, ApiError) 4%nat).
  - apply (stage3_index_and_calls "tv" ["Televisions"; "Monitors"] (λ _ _, ApiError) 4%nat).
    simpl. lia.
Defined.

(** X12.  With at least one option, [_parse_and_validate_number]
    returns -1 or a valid 0-based index, for every response.  The
    precondition is needed: with no option there is no number in range,
    and the parser still returns 0 for a response that is not one of the
    non-answers. *)
Theorem parse_result_in_bounds (response : Response) (max_options : Z) :
  let r := _parse_and_validate_number response max_options in
  (1 ≤ max_options → r = -1 ∨ 0 ≤ r < max_options)
  ∧ (max_options < 1 → r = -1 ∨ r = 0).
Proof.
  intros r. subst r. split; [apply parse_bounds|].
  intros Hmax. destruct response as [|text]; simpl; [by right|].
  destruct (negb _); [by left|].
  destruct (first_number_index _ _) as [i|] eqn:E1.
  { apply first_number_index_bounds in E1. lia. }
  destruct (direct_number_index _ _) as [i|] eqn:E2.
  { apply direct_number_index_bounds in E2. lia. }
  destruct (inb _ _); [by left | by right].
Qed.

Lemma parse_result_in_bounds_witness :
  (_parse_and_validate_number (Content "The answer is 2") 3 = -1
   ∨ 0 ≤ _parse_and_validate_number (Content "The answer is 2") 3 < 3)
  ∧ (_parse_and_validate_number (Content "abc") 0 = -1
     ∨ _parse_and_validate_number (Content "abc") 0 = 0).
Proof.
  split.
  - apply (parse_result_in_bounds (Content "The answer is 2") 3). lia.
  - apply (parse_result_in_bounds (Content "abc") 0). lia.
Defined.

(** X13.  A request fails only in stage 1, 2 or 3.  Once a candidate is
    chosen, the lookup of its full path always succeeds and the handler
    of [navigate_taxonomy] is never taken: the request ends at the
    successful [return] with the segments of a path flagged as a leaf. *)
Theorem pipeline_fails_only_in_stages (lines : list string) (product_info : string)
    (gw : Gateway) (n : nat) :
  let nav := index_of_lines lines in
  let o := (navigate_outcome nav product_info gw n).1 in
  o = Stage1Failed ∨ o = Stage2Failed ∨ o = Stage3Failed
  ∨ ∃ path rest, path ∈ leaf_paths nav ∧ o = Resolved (Py.split SEP path :: rest).
Proof.
  intros nav o. subst o. unfold navigate_outcome, bind.
  destruct (generate_product_summary product_info gw n) as [s n1].
  destruct (stage1_l1_selection nav s gw n1) as [[|l1 l1s] n2]; [by left|].
  pose proof (leaf_selection_elem nav s (l1 :: l1s) gw n2) as Hleaves.
  destruct (leaf_selection nav s (l1 :: l1s) gw n2) as [[|x leaves] n3];
    [by right; left|].
  cbn [fst] in Hleaves.
  assert (∀ idx, 0 ≤ idx < Z.of_nat (length (x :: leaves)) →
            ∃ path rest, path ∈ leaf_paths nav
              ∧ resolve nav (x :: leaves) idx = Resolved (Py.split SEP path :: rest))
    as Hres.
  { intros idx Hidx.
    destruct (resolve_candidate nav (x :: leaves) idx Hleaves Hidx)
      as (leaf & parts & rest & _ & Hr & _ & path & Hp & ->). eauto. }
  right; right. unfold final_selection, bind, ret.
  destruct (length (x :: leaves) =? 1)%nat.
  { right. cbn [fst]. apply Hres. simpl. lia. }
  pose proof (stage3_bounds s (x :: leaves) gw n3) as Hb.
  destruct (stage3_final_selection s (x :: leaves) gw n3) as [idx n4].
  cbn [fst] in Hb. destruct (idx <? 0) eqn:E; cbn [fst]; [by left|].
  right. apply Z.ltb_ge in E. apply Hres. lia.
Qed.

(** ** The mappings from leaf names *)

Section Mappings.

Context {V : Type} (k : string → string) (v : string → V).

Lemma build_map_snoc m0 l p :
  build_map k v m0 (l ++ [p]) = <[k p := v p]> (build_map k v m0 l).
Proof. unfold build_map. by rewrite foldl_app. Qed.

Lemma build_map_other m0 l key :
  (∀ p, p ∈ l → k p ≠ key) → build_map k v m0 l !! key = m0 !! key.
Proof.
  induction l as [|p l IH] using rev_ind; intros Hne; [done|].
  rewrite build_map_snoc, lookup_insert_ne.
  - apply IH. intros q Hq. apply Hne, elem_of_app. by left.
  - apply Hne, elem_of_app. right. apply list_elem_of_here.
Qed.

(** The last path with a given key wins. *)
Lemma build_map_last m0 l1 p l2 :
  (∀ q, q ∈ l2 → k q ≠ k p) →
  build_map k v m0 (l1 ++ p :: l2) !! k p = Some (v p).
Proof.
  intros Hne. unfold build_map. rewrite foldl_app. simpl.
  fold (build_map k v (<[k p := v p]> (foldl (λ m q, <[k q := v q]> m) m0 l1)) l2).
  rewrite build_map_other by done. apply lookup_insert_eq.
Qed.

Lemma build_map_Some l key val :
  build_map k v ∅ l !! key = Some val → ∃ p, p ∈ l ∧ k p = key ∧ v p = val.
Proof.
  induction l as [|p l IH] using rev_ind; [done|].
  rewrite build_map_snoc. destruct (decide (k p = key)) as [<- |Hne].
  - rewrite lookup_insert_eq. intros [= <-]. exists p.
    split; [|done]. apply elem_of_app. right. apply list_elem_of_here.
  - rewrite lookup_insert_ne by done. intros (q & Hq & ?)%IH.
    exists q. split; [|done]. apply elem_of_app. by left.
Qed.

Lemma build_map_is_Some l key :
  is_Some (build_map k v ∅ l !! key) ↔ ∃ p, p ∈ l ∧ k p = key.
Proof.
  split.
  - intros [val (p & ? & ? & _)%build_map_Some]. eauto.
  - induction l as [|p l IH] using rev_ind; [by intros (? & ?%elem_of_nil & _)|].
    intros (q & Hq & Hk). rewrite build_map_snoc.
    destruct (decide (k p = key)) as [<- |Hne].
    + rewrite lookup_insert_eq. eauto.
    + rewrite lookup_insert_ne by done. apply IH. exists q. split; [|done].
      apply elem_of_app in Hq as [?|Hq%list_elem_of_singleton]; [done|].
      by subst q.
Qed.

End Mappings.

Section MoreMappings.

Lemma leaf_to_l1_eq nav :
  _create_leaf_to_l1_mapping nav
  = build_map leaf_name_of (λ p, Py.first_part (Py.split SEP p)) ∅ (leaf_paths nav).
Proof. done. Qed.

Lemma leaf_to_l2_eq nav :
  _create_leaf_to_l2_mapping nav = build_map leaf_name_of l2_of ∅ (leaf_paths nav).
Proof. done. Qed.

Lemma leaf_to_path_eq nav :
  _create_leaf_to_path_mapping nav = build_map leaf_name_of id ∅ (leaf_paths nav).
Proof. done. Qed.

Lemma extract_fold (paths acc1 acc2 : list string) :
  foldl (λ (acc : list string * list string) full_path,
           (acc.1 ++ [full_path], acc.2 ++ [Py.last_part (Py.split SEP full_path)]))
        (acc1, acc2) paths
  = (acc1 ++ paths, acc2 ++ (leaf_name_of <$> paths)).
Proof.
  revert acc1 acc2. induction paths as [|p paths IH]; intros acc1 acc2; simpl.
  - by rewrite !app_nil_r.
  - rewrite IH. by rewrite <- !app_assoc.
Qed.

Lemma extract_leaf_nodes_eq nav :
  _extract_leaf_nodes nav = (leaf_paths nav, leaf_name_of <$> leaf_paths nav).
Proof. unfold _extract_leaf_nodes. by rewrite extract_fold. Qed.

Lemma leaf_count (paths : list string) (markers : list bool) :
  length paths = length markers →
  length (omap (λ pm : string * bool, if pm.2 then Some pm.1 else None)
               (zip paths markers))
  = length (List.filter id markers).
Proof.
  revert markers. induction paths as [|p paths IH]; intros [|m markers] Hlen;
    simpl in *; try done.
  destruct m; simpl; rewrite IH by lia; done.
Qed.

(** Looking each selected name up and keeping the hits. *)
Lemma lookup_hits (m : gmap string string) (selected : list string) :
  (∀ leaf path, m !! leaf = Some path → leaf_name_of path = leaf) →
  Py.last_part <$> omap (λ leaf, Py.split SEP <$> m !! leaf) selected
  = List.filter (λ leaf, bool_decide (is_Some (m !! leaf))) selected.
Proof.
  intros Hm. induction selected as [|leaf selected IH]; [done|]. csimpl.
  destruct (m !! leaf) as [path|] eqn:E; csimpl.
  - rewrite IH. f_equal. by apply Hm.
  - apply IH.
Qed.

End MoreMappings.

(** X14.  The three mappings from leaf names have the leaf names of
    the taxonomy as their keys, and for a name that several leaf paths
    share the last of these paths wins: a leaf path that no later leaf
    path shares its name with is mapped, under its name, to its first
    segment, to its second segment (the first, if it has only one) and
    to itself. *)
Theorem leaf_mappings_spec (lines : list string) :
  let nav := index_of_lines lines in
  (∀ name,
     (is_Some (_create_leaf_to_l1_mapping nav !! name) ↔
      ∃ path, path ∈ leaf_paths nav ∧ leaf_name_of path = name)
     ∧ (is_Some (_create_leaf_to_path_mapping nav !! name) ↔
        ∃ path, path ∈ leaf_paths nav ∧ leaf_name_of path = name)
     ∧ (is_Some (_create_leaf_to_l2_mapping nav !! name) ↔
        ∃ path, path ∈ leaf_paths nav ∧ leaf_name_of path = name))
  ∧ (∀ before path after,
       leaf_paths nav = before ++ path :: after →
       (∀ q, q ∈ after → leaf_name_of q ≠ leaf_name_of path) →
       _create_leaf_to_l1_mapping nav !! leaf_name_of path
       = Some (Py.first_part (Py.split SEP path))
       ∧ _create_leaf_to_l2_mapping nav !! leaf_name_of path = Some (l2_of path)
       ∧ _create_leaf_to_path_mapping nav !! leaf_name_of path = Some path).
Proof.
  intros nav. split.
  - intros name. rewrite leaf_to_l1_eq, leaf_to_path_eq, leaf_to_l2_eq.
    by rewrite !build_map_is_Some.
  - intros before path after Hsplit Hlast.
    rewrite leaf_to_l1_eq, leaf_to_path_eq, leaf_to_l2_eq, Hsplit.
    split; [|split].
    + by apply (build_map_last leaf_name_of (λ p, Py.first_part (Py.split SEP p))).
    + by apply (build_map_last leaf_name_of l2_of).
    + by apply (build_map_last leaf_name_of id).
Qed.

Lemma leaf_mappings_spec_witness :
  let lines := ["# header"; "Apparel > Accessories"; "Electronics > Audio > Accessories";
                "Toys"] in
  _create_leaf_to_l1_mapping (index_of_lines lines) !! "Accessories" = Some "Electronics"
  ∧ _create_leaf_to_l2_mapping (index_of_lines lines) !! "Accessories" = Some "Audio"
  ∧ _create_leaf_to_path_mapping (index_of_lines lines) !! "Accessories"
    = Some "Electronics > Audio > Accessories".
Proof.
  destruct (leaf_mappings_spec ["# header"; "Apparel > Accessories";
                                "Electronics > Audio > Accessories"; "Toys"])
    as [_ H].
  apply (H ["Apparel > Accessories"] "Electronics > Audio > Accessories" ["Toys"]).
  - reflexivity.
  - intros q ->%list_elem_of_singleton. discriminate.
Defined.

(** X15.  In the numbered list of a stage-2 batch, the L1 shown beside
    a candidate is never the default ["Unknown"]: every candidate is a
    key of the mapping, and what is shown is the first segment of a leaf
    path that ends in the candidate's name. *)
Theorem numbered_options_know_l1 (lines : list string)
    (selected_l1s excluded_leaves : list string) (start : nat) (opt : Z * string * string) :
  let nav := index_of_lines lines in
  let filtered := filtered_leaves nav selected_l1s excluded_leaves in
  opt ∈ numbered_options_of (_create_leaf_to_l1_mapping nav)
          (batch_leaves_at filtered start) →
  ∃ path,
    path ∈ leaf_paths nav ∧ leaf_name_of path = opt.1.2
    ∧ _create_leaf_to_l1_mapping nav !! opt.1.2 = Some opt.2
    ∧ opt.2 = Py.first_part (Py.split SEP path)
    ∧ batch_leaves_at filtered start !! (Z.to_nat opt.1.1 - 1)%nat = Some opt.1.2.
Proof.
  intros nav filtered. unfold numbered_options_of.
  intros ([num leaf] & -> & Hin)%list_elem_of_fmap. simpl.
  unfold enumerate1 in Hin. apply list_elem_of_lookup in Hin as [i Hi].
  apply lookup_zip_with_Some in Hi as (num' & leaf' & [= <- <-] & Hnum & Hleaf).
  rewrite list_lookup_fmap in Hnum.
  destruct (seq 1 _ !! i) as [j|] eqn:Hj; [|done]. injection Hnum as <-.
  apply lookup_seq in Hj as [-> _].
  assert (leaf ∈ filtered) as Hf.
  { rewrite batch_leaves_at_take in Hleaf.
    apply list_elem_of_lookup_2 in Hleaf. by apply subseteq_take, subseteq_drop in Hleaf. }
  apply filtered_leaves_spec in Hf as (p & Hp & Hl & _).
  assert (is_Some (_create_leaf_to_l1_mapping nav !! leaf)) as [l1 Hl1].
  { rewrite leaf_to_l1_eq. apply build_map_is_Some. eauto. }
  rewrite Hl1. simpl.
  pose proof Hl1 as Hsome. rewrite leaf_to_l1_eq in Hsome.
  apply build_map_Some in Hsome as (path & Hpath & Hname & Hfirst).
  exists path. repeat split; [done..| |].
  - done.
  - rewrite <- Hleaf. f_equal. lia.
Qed.

Lemma numbered_options_know_l1_witness :
  let nav := index_of_lines sample_lines in
  numbered_options_of (_create_leaf_to_l1_mapping nav)
    (batch_leaves_at (filtered_leaves nav ["Electronics"] []) 0)
  = [(1, "Smartphones", "Electronics"); (2, "Laptops", "Electronics")]
  ∧ _create_leaf_to_l1_mapping nav !! "Laptops" = Some "Electronics".
Proof.
  split; [vm_compute; reflexivity|].
  destruct (numbered_options_know_l1 sample_lines ["Electronics"] [] 0
              (2, "Laptops", "Electronics")) as (path & _ & _ & H & _).
  - apply (bool_decide_unpack _). vm_compute. exact I.
  - exact H.
Defined.

(** X16.  [_extract_leaf_nodes] returns the paths flagged as leaves, in
    file order, and beside each its last segment; both lists have as
    many entries as there are true leaf markers. *)
Theorem extract_leaf_nodes_spec (lines : list string) :
  let nav := index_of_lines lines in
  let '(leaf_paths_out, leaf_names) := _extract_leaf_nodes nav in
  leaf_paths_out = leaf_paths nav
  ∧ leaf_names = leaf_name_of <$> leaf_paths_out
  ∧ length leaf_names = length leaf_paths_out
  ∧ length leaf_paths_out = length (List.filter id (leaf_markers nav))
  ∧ ∀ path, path ∈ leaf_paths_out ↔
      ∃ i : nat, all_paths nav !! i = Some path ∧ leaf_markers nav !! i = Some true.
Proof.
  intros nav. rewrite extract_leaf_nodes_eq.
  split; [done|]. split; [done|]. split; [by rewrite length_fmap|]. split.
  - unfold leaf_paths. apply leaf_count, index_lengths.
  - intros path. apply elem_of_leaf_paths.
Qed.

(** X17.  [_convert_leaves_to_paths] keeps, in order, exactly the
    selected names that are leaf names of the taxonomy and leaves the
    others out; each path it returns is made of the segments of a leaf
    path and ends in the name it was returned for. *)
Theorem convert_leaves_to_paths_spec (lines : list string) (selected_leaves : list string) :
  let nav := index_of_lines lines in
  let result := _convert_leaves_to_paths nav selected_leaves in
  Py.last_part <$> result
  = List.filter (λ leaf, inb leaf (_extract_leaf_nodes nav).2) selected_leaves
  ∧ (∀ parts, parts ∈ result →
       ∃ path, path ∈ leaf_paths nav ∧ parts = Py.split SEP path
               ∧ py_join SEP parts = path ∧ Py.last_part parts ∈ selected_leaves).
Proof.
  intros nav result. subst result. unfold _convert_leaves_to_paths. split.
  - rewrite lookup_hits.
    + rewrite extract_leaf_nodes_eq. cbn [snd]. apply filter_ext. intros leaf.
      unfold inb. apply bool_decide_ext.
      rewrite leaf_to_path_eq, build_map_is_Some, list_elem_of_fmap.
      split; intros (q & ? & ?); exists q; by split.
    + intros leaf path E. rewrite leaf_to_path_eq in E.
      by apply build_map_Some in E as (p & Hp & Hk & <-).
  - intros parts (leaf & Hleaf & Hf)%list_elem_of_omap.
    destruct (_create_leaf_to_path_mapping nav !! leaf) as [path|] eqn:E; [|done].
    injection Hf as <-. rewrite leaf_to_path_eq in E.
    apply build_map_Some in E as (p & Hp & Hk & Hv). simpl in Hv. subst p.
    exists path. split; [done|]. split; [done|].
    split; [by apply join_split|]. by rewrite <- Hk in Hleaf.
Qed.

Lemma convert_leaves_to_paths_spec_witness :
  let nav := index_of_lines sample_lines in
  _convert_leaves_to_paths nav ["Laptops"; "Phones"; "Smartphones"]
  = [["Electronics"; "Computers"; "Laptops"];
     ["Electronics"; "Cell Phones"; "Smartphones"]]
  ∧ ∃ path, path ∈ leaf_paths nav
            ∧ ["Electronics"; "Computers"; "Laptops"] = Py.split SEP path
            ∧ py_join SEP ["Electronics"; "Computers"; "Laptops"] = path
            ∧ Py.last_part ["Electronics"; "Computers"; "Laptops"]
              ∈ ["Laptops"; "Phones"; "Smartphones"].
Proof.
  split; [vm_compute; reflexivity|].
  destruct (convert_leaves_to_paths_spec sample_lines ["Laptops"; "Phones"; "Smartphones"])
    as [_ H].
  apply H. apply (bool_decide_unpack _). vm_compute. exact I.
Defined.

(** ** The category tree *)

Section Tree.

Lemma split_go_two sep cur s :
  Py.truthy sep = true → Py.contains sep s = true →
  (2 ≤ length (Py.split_go sep 0 cur s))%nat.
Proof.
  intros Hsep. revert cur. induction s as [|c s IH]; intros cur; simpl.
  - rewrite orb_false_r. by rewrite startswith_empty.
  - destruct (Py.startswith sep (String c s)) eqn:E; simpl.
    + intros _. pose proof (split_go_nonempty sep (String.length sep - 1) EmptyString s).
      destruct (Py.split_go sep _ _ s); [done|]. simpl. lia.
    + apply IH.
Qed.

Lemma path_parts_shape path :
  path_parts path = [path] ∧ Py.contains GT path = false
  ∨ (2 ≤ length (path_parts path))%nat ∧ Py.contains GT path = true.
Proof.
  unfold path_parts. destruct (Py.contains GT path) eqn:E; simpl; [|by left].
  right. split; [|done]. rewrite length_fmap. by apply split_go_two.
Qed.

Lemma tree_find_cons part rest children :
  tree_find (part :: rest) children
  = match children !! part with
    | None => None
    | Some node => if bool_decide (rest = []) then Some node
                   else tree_find rest (node_children node)
    end.
Proof. simpl. destruct (children !! part); [|done]. by destruct rest. Qed.

(** After the loop, the node of the parts exists and carries the flag,
    when the last part is not the first. *)
Lemma add_parts_find is_leaf parts :
  parts ≠ [] →
  ∀ (i : nat) children, (i ≠ 0 ∨ 2 ≤ length parts)%nat →
  ∃ node, tree_find parts (add_parts is_leaf i parts children) = Some node
          ∧ node_is_leaf node = is_leaf.
Proof.
  induction parts as [|part rest IH]; [done|]. intros _ i children Hi.
  rewrite tree_find_cons. cbn [add_parts]. rewrite lookup_insert_eq.
  destruct rest as [|part' rest].
  - destruct Hi as [Hi|Hi]; [|simpl in Hi; lia].
    rewrite bool_decide_eq_true_2 by done. eexists. split; [done|].
    apply Nat.eqb_neq in Hi. rewrite Hi. simpl.
    by destruct (children !! part).
  - rewrite bool_decide_eq_false_2 by done. cbn [node_children].
    apply IH; [done | by left].
Qed.

(** The loop removes no node and changes the flag of no node but the
    one of its own parts. *)
Lemma add_parts_keeps is_leaf parts :
  ∀ (i : nat) children ps node,
    tree_find ps children = Some node →
    ∃ node', tree_find ps (add_parts is_leaf i parts children) = Some node'
             ∧ node_name node' = node_name node
             ∧ (ps ≠ parts → node_is_leaf node' = node_is_leaf node).
Proof.
  induction parts as [|part rest IH]; intros i children ps node Hfind.
  { exists node. split; [exact Hfind | done]. }
  destruct ps as [|q ps]; [done|].
  rewrite tree_find_cons in Hfind. rewrite tree_find_cons. cbn [add_parts].
  destruct (decide (q = part)) as [-> |Hq].
  - rewrite lookup_insert_eq.
    destruct (children !! part) as [current|] eqn:Hcur; [|done].
    cbn [node_children node_name node_is_leaf].
    case_bool_decide as Hps.
    + injection Hfind as ->. subst ps. eexists. split; [done|].
      split.
      * by destruct (negb (i =? 0)%nat && bool_decide (rest = [])).
      * intros Hne. destruct rest as [|r rest]; [done|].
        rewrite bool_decide_eq_false_2 by done. by rewrite andb_false_r.
    + assert (node_children
                (if negb (i =? 0)%nat && bool_decide (rest = [])
                 then MkNode (node_name current) (node_children current) is_leaf
                 else current) = node_children current) as ->
        by (by destruct (negb (i =? 0)%nat && bool_decide (rest = []))).
      destruct (IH (S i) (node_children current) ps node Hfind)
        as (node' & Hf & Hn & Hl).
      exists node'. split; [done|]. split; [done|].
      intros Hne. apply Hl. by intros ->.
  - rewrite lookup_insert_ne by done.
    destruct (children !! q) as [current|]; [|done].
    exists node. split; [by case_bool_decide|]. split; [done|]. done.
Qed.

Lemma add_to_tree_find tree path is_leaf :
  ∃ node, tree_find (path_parts path) (_add_to_tree tree path is_leaf) = Some node
          ∧ node_is_leaf node = is_leaf.
Proof.
  unfold _add_to_tree.
  destruct (path_parts_shape path) as [[Hp Hc]|[Hp Hc]]; rewrite Hc; simpl.
  - rewrite Hp. simpl.
    destruct (tree !! path) as [current|]; rewrite lookup_insert_eq; eauto.
  - unfold path_parts in *. rewrite Hc in *. simpl in *.
    apply add_parts_find; [|by right].
    intros Hnil. rewrite Hnil in Hp. simpl in Hp. lia.
Qed.

Lemma add_to_tree_keeps tree path is_leaf ps node :
  tree_find ps tree = Some node →
  ∃ node', tree_find ps (_add_to_tree tree path is_leaf) = Some node'
           ∧ node_name node' = node_name node
           ∧ (ps ≠ path_parts path → node_is_leaf node' = node_is_leaf node).
Proof.
  intros Hfind. unfold _add_to_tree, path_parts.
  destruct (Py.contains GT path); simpl; [by apply add_parts_keeps|].
  destruct ps as [|q ps]; [done|]. rewrite tree_find_cons in Hfind.
  assert (∀ new_node,
            (∀ current, tree !! path = Some current →
                        node_name new_node = node_name current
                        ∧ node_children new_node = node_children current) →
            ∃ node', tree_find (q :: ps) (<[path := new_node]> tree) = Some node'
                     ∧ node_name node' = node_name node
                     ∧ (q :: ps ≠ [path] → node_is_leaf node' = node_is_leaf node))
    as Hins.
  { intros new_node Hnew. rewrite tree_find_cons.
    destruct (decide (q = path)) as [-> |Hq].
    - rewrite lookup_insert_eq.
      destruct (tree !! path) as [current|] eqn:Hcur; [|done].
      destruct (Hnew current eq_refl) as [Hn Hch].
      case_bool_decide as Hps.
      + injection Hfind as ->. subst ps. exists new_node.
        split; [done|]. split; [done|]. done.
      + rewrite Hch. exists node. split; [done|]. split; [done|]. done.
    - rewrite lookup_insert_ne by done.
      destruct (tree !! q) as [current|]; [|done].
      exists node. split; [done|]. split; [done|]. done. }
  destruct (tree !! path) as [current|] eqn:Hcur.
  - apply Hins. by intros ? [= <-].
  - apply Hins. by intros ? [=].
Qed.

(** The tree after the rows: a row that no later row files under the
    same parts has its node, with its flag. *)
Lemma build_tree_find before path is_leaf after :
  (∀ row, row ∈ after → path_parts row.1 ≠ path_parts path) →
  ∃ node, tree_find (path_parts path)
            (build_tree (before ++ (path, is_leaf) :: after)) = Some node
          ∧ node_is_leaf node = is_leaf.
Proof.
  unfold build_tree. rewrite foldl_app. simpl.
  generalize (foldl (λ tree row, _add_to_tree tree row.1 row.2) ∅ before).
  intros tree0.
  destruct (add_to_tree_find tree0 path is_leaf) as (node0 & Hfind0 & Hleaf0).
  revert Hfind0 Hleaf0. generalize (_add_to_tree tree0 path is_leaf). clear tree0.
  revert node0. induction after as [|[q b] after IH]; intros node0 tree Hfind Hleaf Hne.
  - simpl. eauto.
  - simpl.
    destruct (add_to_tree_keeps tree q b _ _ Hfind) as (node' & Hf' & _ & Hl').
    apply (IH node' _ Hf').
    + rewrite Hl'; [done|]. intros Heq. symmetry in Heq. revert Heq.
      apply (Hne (q, b)), list_elem_of_here.
    + intros row Hrow. apply Hne. by apply list_elem_of_further.
Qed.

End Tree.

(** X18.  [_add_to_tree] files a path under its parts: after the call
    the node of the path is in the tree and carries the given leaf flag.
    It removes no node, renames none, and changes the leaf flag of no
    node other than the one of the path it adds. *)
Theorem add_to_tree_spec (tree : gmap string Node) (path : string) (is_leaf : bool) :
  (∃ node, tree_find (path_parts path) (_add_to_tree tree path is_leaf) = Some node
           ∧ node_is_leaf node = is_leaf)
  ∧ ∀ parts node,
      tree_find parts tree = Some node →
      ∃ node', tree_find parts (_add_to_tree tree path is_leaf) = Some node'
               ∧ node_name node' = node_name node
               ∧ (parts ≠ path_parts path → node_is_leaf node' = node_is_leaf node).
Proof.
  split.
  - destruct (add_to_tree_find tree path is_leaf) as (node & ? & ?). eauto.
  - intros parts node Hfind.
    destruct (add_to_tree_keeps tree path is_leaf parts node Hfind) as (node' & H).
    by exists node'.
Qed.

Lemma add_to_tree_spec_witness :
  let tree := _add_to_tree ∅ "Electronics" false in
  ∃ node', tree_find ["Electronics"]
             (_add_to_tree tree "Electronics > Computers" true) = Some node'
           ∧ node_name node' = "Electronics"
           ∧ node_is_leaf node' = false.
Proof.
  destruct (add_to_tree_spec (_add_to_tree ∅ "Electronics" false)
              "Electronics > Computers" true) as [_ H].
  destruct (H ["Electronics"] (MkNode "Electronics" ∅ false) eq_refl)
    as (node' & Hf & Hn & Hl).
  exists node'. split; [done|]. split; [done|]. by apply Hl.
Defined.

(** X19.  The tree that [_build_taxonomy_tree] returns holds every path
    of the file: the node of each path is found by descending along its
    parts, and its leaf flag is the leaf marker of the path unless a
    later line of the file is filed under the same parts. *)
Theorem tree_of_lines_spec (lines : list string) (i : nat) (path : string)
    (is_leaf : bool) :
  let nav := index_of_lines lines in
  all_paths nav !! i = Some path → leaf_markers nav !! i = Some is_leaf →
  (∀ (j : nat) later, (i < j)%nat → all_paths nav !! j = Some later →
            path_parts later ≠ path_parts path) →
  ∃ node, tree_find (path_parts path) (tree_of_lines lines) = Some node
          ∧ node_is_leaf node = is_leaf.
Proof.
  intros nav. subst nav. unfold index_of_lines, tree_of_lines.
  destruct (scan_lines (drop 1 lines)) as [paths flags]. simpl.
  intros Hp Hm Hlater.
  assert (zip paths flags !! i = Some (path, is_leaf)) as Hrow
    by (apply lookup_zip_with_Some; eauto).
  rewrite <- (take_drop_middle _ _ _ Hrow).
  apply build_tree_find. intros [q b] Hq. simpl.
  apply list_elem_of_lookup in Hq as [k Hk]. rewrite lookup_drop in Hk.
  apply lookup_zip_with_Some in Hk as (q' & b' & [= <- <-] & Hq & _).
  apply (Hlater (S i + k)%nat); [lia | done].
Qed.

Lemma tree_of_lines_spec_witness :
  ∃ node, tree_find ["Electronics"; "Cell Phones"; "Smartphones"]
            (tree_of_lines sample_lines) = Some node
          ∧ node_is_leaf node = true.
Proof.
  apply (tree_of_lines_spec sample_lines 2 "Electronics > Cell Phones > Smartphones" true).
  - reflexivity.
  - reflexivity.
  - intros j later Hj Hl.
    do 3 (destruct j as [|j]; [lia|]).
    do 5 (destruct j as [|j]; [injection Hl as <-; vm_compute; discriminate|]).
    discriminate Hl.
Defined.

(** ** Configuration *)

Section Config.


End Config.

(** X20.  [get_api_key] never returns an empty key: it returns [None]
    or a non-empty string.  It returns [None] exactly when the argument
    and the environment variable are missing or empty and the key file
    is absent, unreadable or blank; the argument has precedence over the
    environment variable, and both over the file. *)
Theorem get_api_key_spec (api_key_arg env_key : option string) (key_file : KeyFile) :
  let r := get_api_key api_key_arg env_key key_file in
  (∀ key, r = Some key → Py.truthy key = true)
  ∧ (r = None ↔
     opt_truthy api_key_arg = false ∧ opt_truthy env_key = false
     ∧ ∀ text, key_file = KeyFileText text → Py.truthy (Py.strip text) = false)
  ∧ (opt_truthy api_key_arg = true → r = api_key_arg)
  ∧ (opt_truthy api_key_arg = false → opt_truthy env_key = true → r = env_key).
Proof.
  intros r. subst r. unfold get_api_key.
  destruct (opt_truthy api_key_arg) eqn:Ea.
  { destruct api_key_arg as [k|]; [|done]. simpl in Ea.
    split; [by intros ? [= <-]|]. split; [|done]. split; [done|]. by intros (? & _). }
  destruct (opt_truthy env_key) eqn:Ee.
  { destruct env_key as [k|]; [|done]. simpl in Ee.
    split; [by intros ? [= <-]|]. split; [|done]. split; [done|]. by intros (_ & ? & _). }
  split; [|split; [|done]].
  - intros key. destruct key_file as [| |text]; [done..|].
    destruct (Py.truthy (Py.strip text)) eqn:Et; [|done]. by intros [= <-].
  - destruct key_file as [| |text].
    + split; [|done]. by intros _.
    + split; [|done]. by intros _.
    + destruct (Py.truthy (Py.strip text)) eqn:Et.
      * split; [done|]. intros (_ & _ & H). by rewrite (H text eq_refl) in Et.
      * split; [|done]. intros _. split; [done|]. split; [done|]. by intros ? [= <-].
Qed.

Lemma get_api_key_spec_witness :
  get_api_key (Some EmptyString) None (KeyFileText "  sk-file-key
") = Some "sk-file-key"
  ∧ Py.truthy "sk-file-key" = true.
Proof.
  split; [reflexivity|].
  destruct (get_api_key_spec (Some EmptyString) None (KeyFileText "  sk-file-key
")) as [H _].
  by apply H.
Defined.



(** X22.  Construction of the navigator: a missing taxonomy file raises
    [FileNotFoundError] whether or not a key is available, because the
    tree is built first; with a readable file, construction raises
    [ValueError] exactly when no key is found, and otherwise yields the
    index of the file with a non-empty key. *)
Theorem init_navigator_spec (file : FileRead) (api_key_arg env_key : option string)
    (key_file : KeyFile) :
  let r := init_navigator file api_key_arg env_key key_file in
  (file = Missing → r = InitRaises FileNotFoundError)
  ∧ (∀ lines, file = Lines lines →
       (get_api_key api_key_arg env_key key_file = None → r = InitValueError)
       ∧ (∀ key, get_api_key api_key_arg env_key key_file = Some key →
            r = Initialized (index_of_lines lines) key ∧ Py.truthy key = true)).
Proof.
  intros r. subst r. split; [by intros ->|].
  intros lines ->. unfold init_navigator. simpl. split; [by intros ->|].
  intros key Hkey. rewrite Hkey.
  destruct (get_api_key_spec api_key_arg env_key key_file) as [Ht _].
  by rewrite (Ht key Hkey).
Qed.

Lemma init_navigator_spec_witness :
  init_navigator Missing (Some "sk-key") None KeyFileAbsent = InitRaises FileNotFoundError
  ∧ init_navigator (Lines sample_lines) None None KeyFileAbsent = InitValueError.
Proof.
  split.
  - by apply (init_navigator_spec Missing (Some "sk-key") None KeyFileAbsent).
  - destruct (init_navigator_spec (Lines sample_lines) None None KeyFileAbsent)
      as [_ H].
    by apply (H sample_lines).
Defined.
